(** * Task1/process_design.py: 32-bit signed conversions with overflow and saturation

    A shallow embedding of [process_design.py] (parser, range
    classifier, saturator, two's-complement encoder and decoder,
    hexadecimal renderer, [convert], [main]) together with the fragment
    of the Python runtime it calls ([str.strip], [str.upper],
    [re.match], [int], [format], [str]).

    Modelling conventions.
    - A Python [int] is a [Z]; nothing wraps around.
    - Text that reaches the program from outside (the number text, the
      format selector) is a [Py.text]: the list of its code points, of
      any size.  White space is the table of [str.isspace].
    - What depends on the interpreter is a parameter, [Py.Interp]: the
      limit on the digits of an integer string conversion
      ([sys.get_int_max_str_digits()], 0 when there is none), and the
      decimal digits and the upper case of the characters beyond ASCII
      (the Unicode database differs between versions).  On ASCII
      characters every interpreter behaves the same, and the model says
      how.
    - The strings the program builds (bit patterns, hexadecimal and
      decimal numerals) and the bit patterns handed to the decoder and
      the renderer are [string]s of 8-bit characters, a character
      standing for the code point of the same number.
    - A raised [ValueError] is a value of type [ValueError], one
      constructor per [raise] site of the program and of the builtins;
      functions that may raise return a [result]. *)

From Stdlib Require Import ZArith List String Ascii Bool Lia.
Import ListNotations.

Local Open Scope string_scope.
Local Open Scope Z_scope.

(* ================================================================== *)
(** * Part I: definitions *)
(* ================================================================== *)

(** ** The fragment of the Python runtime used by the program *)
Module Py.

Definition ord (c : ascii) : Z := Z.of_N (N_of_ascii c).
Definition chr (n : Z) : ascii := ascii_of_N (Z.to_N n).

(** [any(p(c) for c in s)] *)
Fixpoint any (p : ascii -> bool) (s : string) : bool :=
  match s with
  | EmptyString => false
  | String c r => p c || any p r
  end.

(** [c in s] for a one-character string [c]. *)
Fixpoint contains (s : string) (c : ascii) : bool :=
  match s with
  | EmptyString => false
  | String d r => Ascii.eqb c d || contains r c
  end.

(** [len(s)] *)
Definition len (s : string) : Z := Z.of_nat (String.length s).

(** [c * n] for a one-character string [c]. *)
Fixpoint replicate (n : nat) (c : ascii) : string :=
  match n with
  | O => EmptyString
  | S n' => String c (replicate n' c)
  end.

(** The digit of value [d] as [format] and [str] print it: '0'..'9',
    then 'A'.. (the upper-case letters of the presentation type [X]). *)
Definition digit_char (d : Z) : ascii :=
  if d <? 10 then chr (48 + d) else chr (55 + d).

(** Digits of [n >= 0] in base [base], most significant first, pushed
    in front of [acc]; one division per unit of fuel. *)
Fixpoint to_digits (base : Z) (fuel : nat) (n : Z) (acc : string) : string :=
  match fuel with
  | O => acc
  | S fuel' =>
      let acc' := String (digit_char (n mod base)) acc in
      if n / base =? 0 then acc' else to_digits base fuel' (n / base) acc'
  end.

(** The shortest representation of [n >= 0] in base [base] ("0" for 0). *)
Definition digits (base n : Z) : string :=
  to_digits base (S (Z.to_nat (Z.log2 n))) n EmptyString.

Definition sign_of (x : Z) : string :=
  if x <? 0 then "-" else EmptyString.

(** [format(x, "0<width><type>")] for the binary and hexadecimal
    types: sign first, then zeros up to the minimum width, then the
    digits; nothing is ever cut off.  (No digit limit applies to a base
    that is a power of two.) *)
Definition format_zero_padded (width : nat) (base : Z) (x : Z) : string :=
  let sign := sign_of x in
  let body := digits base (Z.abs x) in
  sign ++ replicate (width - String.length sign - String.length body) "0" ++ body.

(** [format(x, "032b")] *)
Definition format_032b (x : Z) : string := format_zero_padded 32 2 x.

(** [format(x, "08X")] *)
Definition format_08X (x : Z) : string := format_zero_padded 8 16 x.

(** The decimal numeral of an [int]: what [str(x)] returns when it
    returns. *)
Definition repr (x : Z) : string := sign_of x ++ digits 10 (Z.abs x).

(** Value of an 8-bit character as a digit of [int(s, base)]. *)
Definition digit_value (c : ascii) : option Z :=
  let n := ord c in
  if (48 <=? n) && (n <=? 57) then Some (n - 48)
  else if (97 <=? n) && (n <=? 122) then Some (n - 87)
  else if (65 <=? n) && (n <=? 90) then Some (n - 55)
  else None.

Fixpoint int_digits (base : Z) (s : string) (acc : Z) : option Z :=
  match s with
  | EmptyString => Some acc
  | String c r =>
      match digit_value c with
      | Some d => if d <? base then int_digits base r (acc * base + d) else None
      | None => None
      end
  end.

(** [int(s, base)] for a base that is a power of two (the program uses
    2; 16 reads the renderer's output back), on an optional sign
    followed by one or more digits; [None] is the [ValueError] of the
    builtin.  For such a base the interpreter applies no digit limit.
    (The builtin also accepts surrounding white space, underscores
    between digits and a base prefix; the program never passes such a
    string.)  The decimal path of the builtin is [int10] below. *)
Definition int (s : string) (base : Z) : option Z :=
  match s with
  | EmptyString => None
  | String c r =>
      if Ascii.eqb c "+" then
        match r with EmptyString => None | _ => int_digits base r 0 end
      else if Ascii.eqb c "-" then
        match r with
        | EmptyString => None
        | _ => option_map Z.opp (int_digits base r 0)
        end
      else int_digits base s 0
  end.

(** A [str] of any characters: its code points. *)
Definition text : Type := list Z.

(** The code points of a string of the program. *)
Definition codes (s : string) : text := map ord (list_ascii_of_string s).

(** [s == t] *)
Definition eqb (s t : text) : bool :=
  if list_eq_dec Z.eq_dec s t then true else false.

(** [c.isspace()]: U+0009..000D, 001C..0020, 0085, 00A0, 1680,
    2000..200A, 2028, 2029, 202F, 205F, 3000. *)
Definition isspace (c : Z) : bool :=
  ((9 <=? c) && (c <=? 13)) || ((28 <=? c) && (c <=? 32))
  || (c =? 133) || (c =? 160) || (c =? 5760)
  || ((8192 <=? c) && (c <=? 8202)) || (c =? 8232) || (c =? 8233)
  || (c =? 8239) || (c =? 8287) || (c =? 12288).

Fixpoint lstrip (s : text) : text :=
  match s with
  | [] => []
  | c :: r => if isspace c then lstrip r else s
  end.

Fixpoint rstrip (s : text) : text :=
  match s with
  | [] => []
  | c :: r =>
      match rstrip r with
      | [] => if isspace c then [] else [c]
      | r' => c :: r'
      end
  end.

(** [s.strip()] *)
Definition strip (s : text) : text := rstrip (lstrip s).

(** What the program sees of the interpreter it runs on. *)
Record Interp : Type := mkInterp {
  (** [sys.get_int_max_str_digits()]: 0, or at least 640, 4300 unless
      configured; 0 also stands for an interpreter without the limit. *)
  int_max_str_digits : Z;
  (** [unicodedata.decimal(c)] for a character beyond ASCII, if any. *)
  nonascii_decimal : Z -> option Z;
  (** [c.upper()] for a character beyond ASCII. *)
  nonascii_upper : Z -> text
}.

Definition is_ascii (c : Z) : bool := (0 <=? c) && (c <? 128).

(** The value of [c] as a decimal digit, for the characters the regular
    expression class [\d] matches and [int] reads: '0'..'9', and beyond
    ASCII what the interpreter's database says. *)
Definition decimal (I : Interp) (c : Z) : option Z :=
  if is_ascii c then
    if (48 <=? c) && (c <=? 57) then Some (c - 48) else None
  else
    match nonascii_decimal I c with
    | Some d => if (0 <=? d) && (d <=? 9) then Some d else None
    | None => None
    end.

(** [c.upper()] *)
Definition upper_char (I : Interp) (c : Z) : text :=
  if is_ascii c then [if (97 <=? c) && (c <=? 122) then c - 32 else c]
  else nonascii_upper I c.

(** [s.upper()] *)
Definition upper (I : Interp) (s : text) : text := flat_map (upper_char I) s.

(** The interpreter's test on the number [n] of digits of a decimal
    conversion: it looks at the limit only above 640 digits, and a limit
    of 0 is no limit. *)
Definition exceeds_limit (I : Interp) (n : Z) : bool :=
  (640 <? n) && (0 <? int_max_str_digits I) && (int_max_str_digits I <? n).

(** How [int(s, 10)] ends. *)
Inductive int_outcome : Type :=
| Int_value (v : Z)
| Int_invalid_literal
| Int_exceeds_limit.

Fixpoint int10_digits (I : Interp) (s : text) (acc : Z) : option Z :=
  match s with
  | [] => Some acc
  | c :: r =>
      match decimal I c with
      | Some d => int10_digits I r (acc * 10 + d)
      | None => None
      end
  end.

Definition int10_unsigned (I : Interp) (ds : text) (negative : bool)
  : int_outcome :=
  match ds with
  | [] => Int_invalid_literal
  | _ =>
      match int10_digits I ds 0 with
      | None => Int_invalid_literal
      | Some v =>
          if exceeds_limit I (Z.of_nat (List.length ds)) then Int_exceeds_limit
          else Int_value (if negative then - v else v)
      end
  end.

(** [int(s, 10)] on an optional sign followed by one or more decimal
    digits; the digits, leading zeros included, count towards the limit
    and the sign does not.  Any other text is reported as an invalid
    literal.  (The builtin also accepts surrounding white space and
    underscores between digits; the program never passes such text.) *)
Definition int10 (I : Interp) (s : text) : int_outcome :=
  match s with
  | [] => Int_invalid_literal
  | c :: r =>
      if c =? 43 then int10_unsigned I r false
      else if c =? 45 then int10_unsigned I r true
      else int10_unsigned I s false
  end.

(** [str(x)] for an [int]; [None] is the [ValueError] of the digit
    limit. *)
Definition str (I : Interp) (x : Z) : option string :=
  if exceeds_limit I (Z.of_nat (String.length (digits 10 (Z.abs x))))
  then None
  else Some (repr x).

End Py.

(** ** The fragment of the [re] module used by the program *)
Module Re.

Inductive regex : Type :=
| Void
| Eps
| Cls (p : Z -> bool)
| Cat (r1 r2 : regex)
| Alt (r1 r2 : regex)
| Star (r : regex).

(** [r?] and [r+] *)
Definition Opt (r : regex) : regex := Alt r Eps.
Definition Plus (r : regex) : regex := Cat r (Star r).

Fixpoint nullable (r : regex) : bool :=
  match r with
  | Void => false
  | Eps => true
  | Cls _ => false
  | Cat r1 r2 => nullable r1 && nullable r2
  | Alt r1 r2 => nullable r1 || nullable r2
  | Star _ => true
  end.

Fixpoint deriv (c : Z) (r : regex) : regex :=
  match r with
  | Void => Void
  | Eps => Void
  | Cls p => if p c then Eps else Void
  | Cat r1 r2 =>
      if nullable r1 then Alt (Cat (deriv c r1) r2) (deriv c r2)
      else Cat (deriv c r1) r2
  | Alt r1 r2 => Alt (deriv c r1) (deriv c r2)
  | Star r1 => Cat (deriv c r1) (Star r1)
  end.

(** The whole of [s] is a word of [r]. *)
Fixpoint fullmatch (r : regex) (s : Py.text) : bool :=
  match s with
  | [] => nullable r
  | c :: s' => fullmatch (deriv c r) s'
  end.

(** [s] without its last character when that is a newline. *)
Fixpoint before_final_newline (s : Py.text) : option Py.text :=
  match s with
  | [] => None
  | [c] => if c =? 10 then Some [] else None
  | c :: r => option_map (cons c) (before_final_newline r)
  end.

(** [re.compile("^" r "$").match(s)] is not [None]: without the
    MULTILINE flag [^] is the start of the string and [$] is its end or
    the position just before a newline that ends it. *)
Definition match_anchored (r : regex) (s : Py.text) : bool :=
  fullmatch r s
  || match before_final_newline s with
     | Some w => fullmatch r w
     | None => false
     end.

(** The character classes [[+-]] and [\d]; the pattern is a [str]
    pattern compiled without flags, so [\d] is every decimal digit of
    the interpreter's database. *)
Definition sign_class (c : Z) : bool := (c =? 43) || (c =? 45).
Definition decimal_class (I : Py.Interp) (c : Z) : bool :=
  match Py.decimal I c with
  | Some _ => true
  | None => false
  end.

End Re.

(** ** process_design.py *)

Definition MIN_INT32 : Z := - (2 ^ 31).
Definition MAX_INT32 : Z := 2 ^ 31 - 1.
Definition MOD32 : Z := 2 ^ 32.

Record Result : Type := mkResult {
  value_out : string;
  overflow : Z;
  saturated : Z;
  x_input : Z;
  x_sat : Z;
  bin32 : string;
  hex8 : string
}.

(** The [ValueError]s of the program, one per [raise] site, and the two
    the builtins [int] and [str] may raise. *)
Inductive ValueError : Type :=
| Missing_input_value
| Empty_input_value
| Invalid_decimal_integer (s : Py.text)
| Bin32_must_be_32_characters_of_0_1
| Unknown_format_selector (fmt : Py.text)
| Invalid_literal_for_int (base : Z) (s : Py.text)
| Exceeds_the_limit_for_integer_string_conversion.

Inductive result (A : Type) : Type :=
| Ok (a : A)
| Raise (e : ValueError).
Arguments Ok {A} a.
Arguments Raise {A} e.

Definition bind {A B : Type} (m : result A) (k : A -> result B) : result B :=
  match m with
  | Ok a => k a
  | Raise e => Raise e
  end.

Notation "x <- m ;; k" := (bind m (fun x => k))
  (at level 61, m at next level, right associativity).

(** [int(s, base)] for base 2 *)
Definition int_or_raise (s : string) (base : Z) : result Z :=
  match Py.int s base with
  | Some v => Ok v
  | None => Raise (Invalid_literal_for_int base (Py.codes s))
  end.

(** [int(s, 10)] *)
Definition int10_or_raise (I : Py.Interp) (s : Py.text) : result Z :=
  match Py.int10 I s with
  | Py.Int_value v => Ok v
  | Py.Int_invalid_literal => Raise (Invalid_literal_for_int 10 s)
  | Py.Int_exceeds_limit =>
      Raise Exceeds_the_limit_for_integer_string_conversion
  end.

(** [str(x)] *)
Definition str_or_raise (I : Py.Interp) (x : Z) : result string :=
  match Py.str I x with
  | Some s => Ok s
  | None => Raise Exceeds_the_limit_for_integer_string_conversion
  end.

(** [_DEC_PATTERN = re.compile(r"^[+-]?\d+$")]; the two anchors are in
    [Re.match_anchored]. *)
Definition _DEC_PATTERN (I : Py.Interp) : Re.regex :=
  Re.Cat (Re.Opt (Re.Cls Re.sign_class))
         (Re.Plus (Re.Cls (Re.decimal_class I))).

Definition parse_decimal_signed (I : Py.Interp) (s : option Py.text)
  : result Z :=
  match s with
  | None => Raise Missing_input_value
  | Some s =>
      let s := Py.strip s in
      match s with
      | [] => Raise Empty_input_value
      | _ =>
          if negb (Re.match_anchored (_DEC_PATTERN I) s)
          then Raise (Invalid_decimal_integer s)
          else int10_or_raise I s
      end
  end.

Definition detect_overflow (x : Z) : Z :=
  if (x <? MIN_INT32) || (x >? MAX_INT32) then 1 else 0.

Definition saturate_int32 (x : Z) : Z * Z :=
  if x >? MAX_INT32 then (MAX_INT32, 1)
  else if x <? MIN_INT32 then (MIN_INT32, 1)
  else (x, 0).

Definition int32_to_bin32 (x_sat : Z) : string :=
  let u := if x_sat >=? 0 then x_sat else MOD32 + x_sat in
  Py.format_032b u.

(** [len(bin32) != 32 or any(c not in "01" for c in bin32)] *)
Definition not_bin32 (bin32 : string) : bool :=
  negb (Py.len bin32 =? 32) || Py.any (fun c => negb (Py.contains "01" c)) bin32.

Definition bin32_to_hex8 (bin32 : string) (prefix_0x : bool) : result string :=
  if not_bin32 bin32 then Raise Bin32_must_be_32_characters_of_0_1
  else
    u <- int_or_raise bin32 2 ;;
    let hx := Py.format_08X u in
    Ok (if prefix_0x then "0x" ++ hx else hx).

(** [bin32[0]] exists whenever the guard has passed. *)
Definition bin32_to_int32 (bin32 : string) : result Z :=
  if not_bin32 bin32 then Raise Bin32_must_be_32_characters_of_0_1
  else
    u <- int_or_raise bin32 2 ;;
    Ok (match String.get 0 bin32 with
        | Some c => if Ascii.eqb c "0" then u else u - MOD32
        | None => u - MOD32
        end).

Definition convert (I : Py.Interp)
           (x_str : option Py.text) (fmt : Py.text) (hex_prefix : bool)
  : result Result :=
  x <- parse_decimal_signed I x_str ;;
  let overflow := detect_overflow x in
  let '(x_sat, saturated) := saturate_int32 x in
  let bin32 := int32_to_bin32 x_sat in
  hex8 <- bin32_to_hex8 bin32 hex_prefix ;;
  value_out <-
    (if Py.eqb fmt (Py.codes "DEC") then str_or_raise I x_sat
     else if Py.eqb fmt (Py.codes "BIN") then Ok bin32
     else if Py.eqb fmt (Py.codes "HEX") then Ok hex8
     else Raise (Unknown_format_selector fmt)) ;;
  Ok (mkResult value_out overflow saturated x x_sat bin32 hex8).

(** ** [main], from the parsed command line on *)

(** The namespace [parser.parse_args()] returns. *)
Record Namespace : Type := mkNamespace {
  arg_x : Py.text;
  arg_fmt : Py.text;
  arg_hex_prefix : bool
}.

(** How a run of [main] ends. *)
Inductive termination : Type :=
| Returned
| SystemExit (msg : string)
| Uncaught (e : ValueError).

(** [fmt_upper in {"DEC", "BIN", "HEX"}] *)
Definition in_formats (fmt_upper : Py.text) : bool :=
  existsb (Py.eqb fmt_upper)
          [Py.codes "DEC"; Py.codes "BIN"; Py.codes "HEX"].

(** The lines printed on standard output, in order, and the way the run
    ends. *)
Definition main (I : Py.Interp) (args : Namespace)
  : list string * termination :=
  let fmt_upper := Py.upper I (Py.strip (arg_fmt args)) in
  if negb (in_formats fmt_upper)
  then ([], SystemExit "Format must be one of: DEC, BIN, HEX")
  else
    match convert I (Some (arg_x args)) fmt_upper (arg_hex_prefix args) with
    | Raise e => ([], Uncaught e)
    | Ok res =>
        match Py.str I (overflow res) with
        | None =>
            ([value_out res],
             Uncaught Exceeds_the_limit_for_integer_string_conversion)
        | Some o =>
            match Py.str I (saturated res) with
            | None =>
                ([value_out res; "overflow=" ++ o],
                 Uncaught Exceeds_the_limit_for_integer_string_conversion)
            | Some s =>
                ([value_out res; "overflow=" ++ o; "saturated=" ++ s],
                 Returned)
            end
        end
    end.

(** ** The vocabulary of the specification *)

(** The three failures of the specification. *)
Inductive ErrorKind : Type :=
| InvalidFormat
| MalformedBitPattern
| UnknownFormatSelector.

(** Which failure a [ValueError] of the program is; the errors of the
    builtins [int] and [str] are none of them. *)
Definition kind_of (e : ValueError) : option ErrorKind :=
  match e with
  | Missing_input_value => Some InvalidFormat
  | Empty_input_value => Some InvalidFormat
  | Invalid_decimal_integer _ => Some InvalidFormat
  | Bin32_must_be_32_characters_of_0_1 => Some MalformedBitPattern
  | Unknown_format_selector _ => Some UnknownFormatSelector
  | Invalid_literal_for_int _ _ => None
  | Exceeds_the_limit_for_integer_string_conversion => None
  end.

Definition fails_with {A : Type} (m : result A) (k : ErrorKind) : Prop :=
  exists e, m = Raise e /\ kind_of e = Some k.

Definition in_int32 (v : Z) : Prop := MIN_INT32 <= v <= MAX_INT32.

Definition is_bit (c : ascii) : bool := Ascii.eqb c "0" || Ascii.eqb c "1".

Fixpoint all_chars (p : ascii -> bool) (s : string) : bool :=
  match s with
  | EmptyString => true
  | String c r => p c && all_chars p r
  end.

(** A BitPattern32: exactly 32 characters, each '0' or '1'. *)
Definition BitPattern32 (b : string) : Prop :=
  String.length b = 32%nat /\ all_chars is_bit b = true.

Definition is_decimal_digit (c : ascii) : bool :=
  (48 <=? Py.ord c) && (Py.ord c <=? 57).

Definition is_hex_upper_digit (c : ascii) : bool :=
  is_decimal_digit c || ((65 <=? Py.ord c) && (Py.ord c <=? 70)).

(** Value of a string of digits read in base [base], most significant
    digit first ('0'..'9' then 'A'..). *)
Definition char_digit (c : ascii) : Z :=
  if Py.ord c <? 58 then Py.ord c - 48 else Py.ord c - 55.

Fixpoint positional (base : Z) (s : string) (acc : Z) : Z :=
  match s with
  | EmptyString => acc
  | String c r => positional base r (acc * base + char_digit c)
  end.

(** The unsigned number a bit pattern denotes. *)
Definition unsigned_of (b : string) : Z := positional 2 b 0.

(** The decimal numerals the program prints: an optional sign, then one
    or more of '0'..'9'; [v] is the integer it denotes. *)
Inductive decimal_literal : string -> Z -> Prop :=
| lit_unsigned (ds : string) :
    ds <> EmptyString -> all_chars is_decimal_digit ds = true ->
    decimal_literal ds (positional 10 ds 0)
| lit_plus (ds : string) :
    ds <> EmptyString -> all_chars is_decimal_digit ds = true ->
    decimal_literal (String "+" ds) (positional 10 ds 0)
| lit_minus (ds : string) :
    ds <> EmptyString -> all_chars is_decimal_digit ds = true ->
    decimal_literal (String "-" ds) (- positional 10 ds 0).

(** The number a sequence of decimal digits denotes, each character
    read by its digit value. *)
Definition digit_of (I : Py.Interp) (c : Z) : Z :=
  match Py.decimal I c with
  | Some d => d
  | None => 0
  end.

Fixpoint number_of (I : Py.Interp) (ds : Py.text) (acc : Z) : Z :=
  match ds with
  | [] => acc
  | c :: r => number_of I r (acc * 10 + digit_of I c)
  end.

(** The grammar of the parser on trimmed text: an optional '+' or '-',
    then one or more decimal digits and nothing else; [v] is the integer
    it denotes. *)
Inductive decimal_text (I : Py.Interp) : Py.text -> Z -> Prop :=
| text_unsigned (ds : Py.text) :
    ds <> [] -> forallb (Re.decimal_class I) ds = true ->
    decimal_text I ds (number_of I ds 0)
| text_plus (ds : Py.text) :
    ds <> [] -> forallb (Re.decimal_class I) ds = true ->
    decimal_text I (43 :: ds) (number_of I ds 0)
| text_minus (ds : Py.text) :
    ds <> [] -> forallb (Re.decimal_class I) ds = true ->
    decimal_text I (45 :: ds) (- number_of I ds 0).

(** The number of digits of a literal: its length without the sign. *)
Definition digit_count (t : Py.text) : Z :=
  match t with
  | [] => 0
  | c :: r =>
      if Re.sign_class c then Z.of_nat (List.length r)
      else Z.of_nat (List.length t)
  end.

(** What a regular expression denotes. *)
Inductive lang : Re.regex -> Py.text -> Prop :=
| lang_eps : lang Re.Eps []
| lang_cls (p : Z -> bool) (c : Z) :
    p c = true -> lang (Re.Cls p) [c]
| lang_cat (r1 r2 : Re.regex) (s1 s2 : Py.text) :
    lang r1 s1 -> lang r2 s2 -> lang (Re.Cat r1 r2) (s1 ++ s2)%list
| lang_alt_l (r1 r2 : Re.regex) (s : Py.text) :
    lang r1 s -> lang (Re.Alt r1 r2) s
| lang_alt_r (r1 r2 : Re.regex) (s : Py.text) :
    lang r2 s -> lang (Re.Alt r1 r2) s
| lang_star_nil (r : Re.regex) : lang (Re.Star r) []
| lang_star_cons (r : Re.regex) (s1 s2 : Py.text) :
    lang r s1 -> lang (Re.Star r) s2 -> lang (Re.Star r) (s1 ++ s2)%list.

(** Upper case of the letters 'a'..'z' only. *)
Definition ascii_upper (c : Z) : Z :=
  if (97 <=? c) && (c <=? 122) then c - 32 else c.

Fixpoint map_chars (f : ascii -> ascii) (s : string) : string :=
  match s with
  | EmptyString => EmptyString
  | String c r => String (f c) (map_chars f r)
  end.

(** The bits of a pattern flipped. *)
Definition flip_bit (c : ascii) : ascii :=
  if Ascii.eqb c "0" then "1"%char else "0"%char.

(** The bits of a pattern read four at a time, each group printed as
    one hexadecimal digit; [n] is the number of groups. *)
Fixpoint nibbles (n : nat) (s : string) : string :=
  match n with
  | O => EmptyString
  | S n' =>
      match s with
      | String a (String b (String c (String d r))) =>
          String (Py.digit_char
                    (positional 2 (String a (String b (String c (String d EmptyString)))) 0))
                 (nibbles n' r)
      | _ => EmptyString
      end
  end.

(** An interpreter for the examples: the default digit limit, the
    Arabic-Indic digits U+0660..U+0669 as the decimal digits beyond
    ASCII, and U+0131 (dotless i), whose upper case is 'I', as the one
    letter beyond ASCII with an upper case of its own. *)
Definition sample_interp : Py.Interp :=
  Py.mkInterp 4300
    (fun c => if (1632 <=? c) && (c <=? 1641) then Some (c - 1632) else None)
    (fun c => if c =? 305 then [73] else [c]).

(** The same with the digit limit switched off. *)
Definition unlimited_interp : Py.Interp :=
  Py.mkInterp 0 (Py.nonascii_decimal sample_interp)
    (Py.nonascii_upper sample_interp).

(* ================================================================== *)
(** * Part II: properties *)
(* ================================================================== *)

(** ** Strings *)
Section Strings.

Lemma append_empty_r (s : string) : s ++ EmptyString = s.
Proof. induction s as [|c s IH]; simpl; [reflexivity | now rewrite IH]. Qed.

Lemma append_assoc (s t u : string) : (s ++ t) ++ u = s ++ (t ++ u).
Proof. induction s as [|c s IH]; simpl; [reflexivity | now rewrite IH]. Qed.

Lemma length_append (s t : string) :
  String.length (s ++ t) = (String.length s + String.length t)%nat.
Proof. induction s as [|c s IH]; simpl; [reflexivity | now rewrite IH]. Qed.

Lemma length_replicate (n : nat) (c : ascii) :
  String.length (Py.replicate n c) = n.
Proof. induction n as [|n IH]; simpl; [reflexivity | now rewrite IH]. Qed.

Lemma all_chars_append (p : ascii -> bool) (s t : string) :
  all_chars p (s ++ t) = all_chars p s && all_chars p t.
Proof.
  induction s as [|c s IH]; simpl; [reflexivity |].
  now rewrite IH, andb_assoc.
Qed.

Lemma all_chars_replicate (p : ascii -> bool) (n : nat) (c : ascii) :
  p c = true -> all_chars p (Py.replicate n c) = true.
Proof. intros Hc. induction n as [|n IH]; simpl; [reflexivity | now rewrite Hc]. Qed.

Lemma all_chars_weaken (p q : ascii -> bool) (s : string) :
  (forall c, p c = true -> q c = true) ->
  all_chars p s = true -> all_chars q s = true.
Proof.
  intros Hpq. induction s as [|c s IH]; simpl; [reflexivity |].
  rewrite !andb_true_iff. intros [Hc Hs]. split; auto.
Qed.

Lemma ord_range (c : ascii) : 0 <= Py.ord c < 256.
Proof.
  unfold Py.ord. pose proof (N_ascii_bounded c). lia.
Qed.

Lemma ord_chr (n : Z) : 0 <= n < 256 -> Py.ord (Py.chr n) = n.
Proof.
  intros Hn. unfold Py.ord, Py.chr.
  rewrite N_ascii_embedding by lia. lia.
Qed.

Lemma ord_inj (c d : ascii) : Py.ord c = Py.ord d -> c = d.
Proof.
  unfold Py.ord. intros H.
  rewrite <- (ascii_N_embedding c), <- (ascii_N_embedding d).
  f_equal. lia.
Qed.

Lemma eqb_ord (c d : ascii) : Ascii.eqb c d = (Py.ord c =? Py.ord d).
Proof.
  destruct (Ascii.eqb_spec c d) as [->|Hne].
  - symmetry. apply Z.eqb_refl.
  - symmetry. apply Z.eqb_neq. intros H. apply Hne, ord_inj, H.
Qed.

Lemma is_bit_cases (c : ascii) :
  is_bit c = true -> c = "0"%char \/ c = "1"%char.
Proof.
  unfold is_bit. rewrite orb_true_iff.
  intros [H|H]; apply Ascii.eqb_eq in H; auto.
Qed.

End Strings.

(** ** Positional notation: [format], [str] and [int] *)
Section Digits.

Variable base : Z.
Hypothesis base_range : 2 <= base <= 36.

Lemma char_digit_digit_char (d : Z) :
  0 <= d < 36 -> char_digit (Py.digit_char d) = d.
Proof.
  intros Hd. unfold char_digit, Py.digit_char.
  destruct (Z.ltb_spec d 10).
  - rewrite ord_chr by lia. destruct (Z.ltb_spec (48 + d) 58); lia.
  - rewrite ord_chr by lia. destruct (Z.ltb_spec (55 + d) 58); lia.
Qed.

Lemma positional_append (s t : string) (acc : Z) :
  positional base (s ++ t) acc = positional base t (positional base s acc).
Proof.
  revert acc. induction s as [|c s IH]; intros acc; simpl; [reflexivity|].
  apply IH.
Qed.

Lemma positional_acc (s : string) (acc : Z) :
  positional base s acc
  = acc * base ^ Z.of_nat (String.length s) + positional base s 0.
Proof.
  revert acc. induction s as [|c s IH]; intros acc.
  - simpl. lia.
  - cbn [positional String.length].
    rewrite IH. rewrite (IH (0 * base + char_digit c)).
    rewrite Nat2Z.inj_succ, Z.pow_succ_r by lia. ring.
Qed.

Lemma positional_replicate_zero (n : nat) :
  positional base (Py.replicate n "0") 0 = 0.
Proof. induction n as [|n IH]; simpl; [reflexivity | exact IH]. Qed.

Lemma to_digits_acc (fuel : nat) (n : Z) (acc : string) :
  Py.to_digits base fuel n acc = Py.to_digits base fuel n EmptyString ++ acc.
Proof.
  revert n acc. induction fuel as [|fuel IH]; intros n acc; simpl.
  - reflexivity.
  - destruct (n / base =? 0).
    + reflexivity.
    + rewrite IH. rewrite (IH _ (String _ EmptyString)).
      rewrite append_assoc. reflexivity.
Qed.

Lemma to_digits_value (fuel : nat) (n : Z) :
  0 <= n < base ^ Z.of_nat fuel ->
  positional base (Py.to_digits base fuel n EmptyString) 0 = n.
Proof.
  revert n. induction fuel as [|fuel IH]; intros n Hn.
  - simpl in *. lia.
  - rewrite Nat2Z.inj_succ, Z.pow_succ_r in Hn by lia.
    assert (Hmod : 0 <= n mod base < base) by (apply Z.mod_pos_bound; lia).
    assert (Hdiv : n = base * (n / base) + n mod base)
      by (apply Z.div_mod; lia).
    simpl. destruct (Z.eqb_spec (n / base) 0) as [Hz|Hnz].
    + simpl. rewrite char_digit_digit_char by lia. lia.
    + rewrite to_digits_acc, positional_append. rewrite IH.
      * simpl. rewrite char_digit_digit_char by lia. lia.
      * split; [apply Z.div_pos; lia|].
        apply Z.div_lt_upper_bound; lia.
Qed.

Lemma to_digits_length (fuel : nat) (k : nat) (n : Z) :
  (0 < k)%nat -> 0 <= n < base ^ Z.of_nat k ->
  (String.length (Py.to_digits base fuel n EmptyString) <= k)%nat.
Proof.
  revert k n. induction fuel as [|fuel IH]; intros k n Hk Hn.
  - simpl. lia.
  - simpl. destruct (Z.eqb_spec (n / base) 0) as [Hz|Hnz].
    + simpl. lia.
    + rewrite to_digits_acc, length_append. simpl.
      destruct k as [|k]; [lia|].
      rewrite Nat2Z.inj_succ, Z.pow_succ_r in Hn by lia.
      assert (Hq : 0 <= n / base < base ^ Z.of_nat k).
      { split; [apply Z.div_pos; lia|].
        apply Z.div_lt_upper_bound; lia. }
      destruct k as [|k].
      * simpl in Hq. lia.
      * specialize (IH (S k) (n / base) ltac:(lia) Hq). lia.
Qed.

Lemma to_digits_chars (p : ascii -> bool) (fuel : nat) (n : Z) :
  (forall d, 0 <= d < base -> p (Py.digit_char d) = true) ->
  all_chars p (Py.to_digits base fuel n EmptyString) = true.
Proof.
  intros Hp. revert n. induction fuel as [|fuel IH]; intros n; simpl.
  - reflexivity.
  - assert (Hmod : 0 <= n mod base < base) by (apply Z.mod_pos_bound; lia).
    destruct (n / base =? 0).
    + simpl. now rewrite Hp.
    + rewrite to_digits_acc, all_chars_append, IH. simpl. now rewrite Hp.
Qed.

Lemma log2_fuel (n : Z) :
  0 <= n -> n < base ^ Z.of_nat (S (Z.to_nat (Z.log2 n))).
Proof.
  intros Hn.
  assert (Hlog : 0 <= Z.log2 n) by apply Z.log2_nonneg.
  rewrite Nat2Z.inj_succ, Z2Nat.id by exact Hlog.
  apply Z.lt_le_trans with (2 ^ Z.succ (Z.log2 n)).
  - destruct (Z.eq_dec n 0) as [->|Hne].
    + simpl. lia.
    + apply Z.log2_spec. lia.
  - apply Z.pow_le_mono_l. lia.
Qed.

Lemma digits_value (n : Z) :
  0 <= n -> positional base (Py.digits base n) 0 = n.
Proof.
  intros Hn. unfold Py.digits. apply to_digits_value.
  split; [exact Hn | apply log2_fuel, Hn].
Qed.

Lemma digits_length (k : nat) (n : Z) :
  (0 < k)%nat -> 0 <= n < base ^ Z.of_nat k ->
  (String.length (Py.digits base n) <= k)%nat.
Proof. intros Hk Hn. unfold Py.digits. now apply to_digits_length. Qed.

Lemma digits_nonempty (n : Z) : Py.digits base n <> EmptyString.
Proof.
  unfold Py.digits. simpl. destruct (n / base =? 0); [discriminate|].
  rewrite to_digits_acc. destruct (Py.to_digits base _ _ EmptyString); discriminate.
Qed.

Lemma digits_chars (p : ascii -> bool) (n : Z) :
  (forall d, 0 <= d < base -> p (Py.digit_char d) = true) ->
  all_chars p (Py.digits base n) = true.
Proof. intros Hp. unfold Py.digits. now apply to_digits_chars. Qed.

(** A number below [base ^ width] is printed on exactly [width] digits
    that read back as the number. *)
Lemma format_zero_padded_spec (p : ascii -> bool) (width : nat) (x : Z) :
  (0 < width)%nat -> 0 <= x < base ^ Z.of_nat width ->
  (forall d, 0 <= d < base -> p (Py.digit_char d) = true) ->
  String.length (Py.format_zero_padded width base x) = width
  /\ all_chars p (Py.format_zero_padded width base x) = true
  /\ positional base (Py.format_zero_padded width base x) 0 = x.
Proof.
  intros Hw Hx Hp. unfold Py.format_zero_padded, Py.sign_of.
  destruct (Z.ltb_spec x 0) as [Hneg|_]; [lia|].
  rewrite Z.abs_eq by lia. cbn [append String.length].
  pose proof (digits_length width x Hw Hx) as Hlen.
  assert (H0 : p "0"%char = true) by (apply (Hp 0); lia).
  repeat split.
  - rewrite length_append, length_replicate. lia.
  - rewrite all_chars_append, all_chars_replicate by exact H0.
    simpl. now apply digits_chars.
  - rewrite positional_append, positional_replicate_zero.
    apply digits_value. lia.
Qed.

End Digits.

(** ** Digit strings read back *)
Section Reading.

Variable base : Z.
Hypothesis base_range : 2 <= base <= 36.
Variable p : ascii -> bool.
Hypothesis p_digit : forall c, p c = true -> 0 <= char_digit c < base.
Hypothesis p_value : forall c, p c = true -> Py.digit_value c = Some (char_digit c).
Hypothesis p_inj :
  forall c d, p c = true -> p d = true -> char_digit c = char_digit d -> c = d.

Lemma positional_bounds (s : string) :
  all_chars p s = true ->
  0 <= positional base s 0 < base ^ Z.of_nat (String.length s).
Proof.
  induction s as [|c s IH].
  - simpl. lia.
  - cbn [all_chars positional String.length].
    rewrite andb_true_iff. intros [Hc Hs].
    rewrite (positional_acc base).
    specialize (IH Hs). apply p_digit in Hc.
    rewrite Nat2Z.inj_succ, Z.pow_succ_r by lia.
    nia.
Qed.

Lemma int_digits_positional (s : string) (acc : Z) :
  all_chars p s = true ->
  Py.int_digits base s acc = Some (positional base s acc).
Proof.
  revert acc. induction s as [|c s IH]; intros acc; simpl.
  - reflexivity.
  - rewrite andb_true_iff. intros [Hc Hs].
    rewrite (p_value c Hc).
    destruct (Z.ltb_spec (char_digit c) base) as [_|Hge].
    + now apply IH.
    + apply p_digit in Hc. lia.
Qed.

Lemma positional_inj (s t : string) :
  String.length s = String.length t ->
  all_chars p s = true -> all_chars p t = true ->
  positional base s 0 = positional base t 0 -> s = t.
Proof.
  revert t. induction s as [|c s IH]; intros [|d t]; simpl; try discriminate.
  - reflexivity.
  - intros Hlen. injection Hlen as Hlen.
    rewrite !andb_true_iff. intros [Hc Hs] [Hd Ht].
    rewrite (positional_acc base s), (positional_acc base t), <- Hlen.
    pose proof (positional_bounds s Hs) as Bs.
    pose proof (positional_bounds t Ht) as Bt.
    rewrite <- Hlen in Bt.
    pose proof (p_digit c Hc) as Bc. pose proof (p_digit d Hd) as Bd.
    intros Heq.
    assert (Hcd : char_digit c = char_digit d) by nia.
    assert (Hst : positional base s 0 = positional base t 0) by nia.
    f_equal.
    + now apply p_inj.
    + now apply IH.
Qed.

End Reading.

(** ** The three alphabets: bits, decimal digits, upper-case hexadecimal *)
Section Alphabets.

Lemma is_bit_digit (c : ascii) : is_bit c = true -> 0 <= char_digit c < 2.
Proof. intros H. destruct (is_bit_cases c H) as [->| ->]; vm_compute; intuition discriminate. Qed.

Lemma is_bit_value (c : ascii) :
  is_bit c = true -> Py.digit_value c = Some (char_digit c).
Proof. intros H. destruct (is_bit_cases c H) as [->| ->]; reflexivity. Qed.

Lemma is_bit_inj (c d : ascii) :
  is_bit c = true -> is_bit d = true -> char_digit c = char_digit d -> c = d.
Proof.
  intros Hc Hd.
  destruct (is_bit_cases c Hc) as [->| ->];
    destruct (is_bit_cases d Hd) as [->| ->];
    vm_compute; intros H; try reflexivity; discriminate.
Qed.

Lemma is_decimal_digit_ord (c : ascii) :
  is_decimal_digit c = true <-> 48 <= Py.ord c <= 57.
Proof. unfold is_decimal_digit. rewrite andb_true_iff, !Z.leb_le. tauto. Qed.

Lemma is_decimal_digit_digit (c : ascii) :
  is_decimal_digit c = true -> 0 <= char_digit c < 10.
Proof.
  rewrite is_decimal_digit_ord. intros H. unfold char_digit.
  destruct (Z.ltb_spec (Py.ord c) 58); lia.
Qed.

Lemma is_decimal_digit_value (c : ascii) :
  is_decimal_digit c = true -> Py.digit_value c = Some (char_digit c).
Proof.
  intros H. unfold Py.digit_value. fold (is_decimal_digit c). rewrite H.
  apply is_decimal_digit_ord in H. unfold char_digit.
  destruct (Z.ltb_spec (Py.ord c) 58); [reflexivity | lia].
Qed.

Lemma is_decimal_digit_inj (c d : ascii) :
  is_decimal_digit c = true -> is_decimal_digit d = true ->
  char_digit c = char_digit d -> c = d.
Proof.
  rewrite !is_decimal_digit_ord. intros Hc Hd. unfold char_digit.
  destruct (Z.ltb_spec (Py.ord c) 58); destruct (Z.ltb_spec (Py.ord d) 58);
    try lia.
  intros Heq. apply ord_inj. lia.
Qed.

Lemma digit_char_bit (d : Z) : 0 <= d < 2 -> is_bit (Py.digit_char d) = true.
Proof.
  intros H. assert (Hd : d = 0 \/ d = 1) by lia.
  destruct Hd as [->| ->]; reflexivity.
Qed.

Lemma digit_char_decimal (d : Z) :
  0 <= d < 10 -> is_decimal_digit (Py.digit_char d) = true.
Proof.
  intros H. apply is_decimal_digit_ord. unfold Py.digit_char.
  destruct (Z.ltb_spec d 10); [|lia]. rewrite ord_chr; lia.
Qed.

Lemma digit_char_hex (d : Z) :
  0 <= d < 16 -> is_hex_upper_digit (Py.digit_char d) = true.
Proof.
  intros H. unfold is_hex_upper_digit. destruct (Z.ltb_spec d 10) as [Hlt|Hge].
  - rewrite digit_char_decimal by lia. reflexivity.
  - apply orb_true_iff. right. unfold Py.digit_char.
    destruct (Z.ltb_spec d 10); [lia|]. rewrite ord_chr by lia.
    apply andb_true_iff. rewrite !Z.leb_le. lia.
Qed.

Lemma is_hex_upper_digit_digit (c : ascii) :
  is_hex_upper_digit c = true -> 0 <= char_digit c < 16.
Proof.
  unfold is_hex_upper_digit. rewrite orb_true_iff, andb_true_iff, !Z.leb_le.
  intros [H|H].
  - apply is_decimal_digit_digit in H. lia.
  - unfold char_digit. destruct (Z.ltb_spec (Py.ord c) 58); lia.
Qed.

(** The guard of the decoder and of the renderer passes exactly the
    bit patterns. *)
Lemma not_bin32_false (b : string) : not_bin32 b = false <-> BitPattern32 b.
Proof.
  unfold not_bin32, BitPattern32, Py.len.
  assert (Hany : Py.any (fun c => negb (Py.contains "01" c)) b
                 = negb (all_chars is_bit b)).
  { induction b as [|c b IH]; cbn [Py.any all_chars]; [reflexivity|].
    rewrite IH, negb_andb. unfold is_bit. cbn [Py.contains].
    now rewrite orb_false_r. }
  rewrite Hany, orb_false_iff, !negb_false_iff, Z.eqb_eq. split.
  - intros [Hl Ha]. split; [lia | exact Ha].
  - intros [Hl Ha]. split; [lia | exact Ha].
Qed.

Lemma int_bits (b : string) :
  b <> EmptyString -> all_chars is_bit b = true -> Py.int b 2 = Some (unsigned_of b).
Proof.
  intros Hne Hb. destruct b as [|c r]; [contradiction|].
  unfold Py.int.
  assert (Hc : is_bit c = true) by (simpl in Hb; now apply andb_true_iff in Hb).
  destruct (is_bit_cases c Hc) as [->| ->]; cbn [Ascii.eqb Bool.eqb];
    apply (int_digits_positional 2 is_bit is_bit_digit is_bit_value); exact Hb.
Qed.

Lemma unsigned_of_bounds (b : string) :
  BitPattern32 b -> 0 <= unsigned_of b < 2 ^ 32.
Proof.
  intros [Hl Hb].
  pose proof (positional_bounds 2 ltac:(lia) is_bit is_bit_digit b Hb) as H.
  rewrite Hl in H. exact H.
Qed.

(** The first character of a bit pattern is its sign bit. *)
Lemma sign_bit (b : string) :
  BitPattern32 b ->
  exists c, String.get 0 b = Some c
            /\ (Ascii.eqb c "0" = true <-> unsigned_of b < 2 ^ 31).
Proof.
  intros [Hl Hb]. destruct b as [|c r]; [discriminate|].
  exists c. split; [reflexivity|].
  simpl in Hl. injection Hl as Hl.
  simpl in Hb. apply andb_true_iff in Hb as [Hc Hr].
  pose proof (positional_bounds 2 ltac:(lia) is_bit is_bit_digit r Hr) as Br.
  rewrite Hl in Br.
  unfold unsigned_of. cbn [positional]. rewrite (positional_acc 2), Hl.
  destruct (is_bit_cases c Hc) as [->| ->].
  - change (char_digit "0") with 0. split; [intros _; lia | reflexivity].
  - change (char_digit "1") with 1. split; [discriminate | intros H; lia].
Qed.

End Alphabets.

(** ** Range classification and saturation *)
Section Range.

Lemma in_int32_bounds (v : Z) :
  in_int32 v <-> - 2 ^ 31 <= v <= 2 ^ 31 - 1.
Proof. unfold in_int32, MIN_INT32, MAX_INT32. lia. Qed.

Lemma saturate_cases (v : Z) :
  (v > MAX_INT32 /\ saturate_int32 v = (MAX_INT32, 1))
  \/ (v < MIN_INT32 /\ saturate_int32 v = (MIN_INT32, 1))
  \/ (in_int32 v /\ saturate_int32 v = (v, 0)).
Proof.
  unfold saturate_int32, in_int32. rewrite Z.gtb_ltb.
  destruct (Z.ltb_spec MAX_INT32 v) as [Hgt|Hle].
  - left. split; [lia | reflexivity].
  - destruct (Z.ltb_spec v MIN_INT32) as [Hlt|Hge].
    + right. left. split; [lia | reflexivity].
    + right. right. split; [lia | reflexivity].
Qed.

Lemma saturate_in_range (v : Z) : in_int32 (fst (saturate_int32 v)).
Proof.
  destruct (saturate_cases v) as [[_ ->]|[[_ ->]|[H ->]]]; simpl;
    [| | exact H]; unfold in_int32, MIN_INT32, MAX_INT32; lia.
Qed.

Lemma detect_overflow_cases (v : Z) :
  (in_int32 v /\ detect_overflow v = 0)
  \/ ((v < MIN_INT32 \/ v > MAX_INT32) /\ detect_overflow v = 1).
Proof.
  unfold detect_overflow, in_int32. rewrite Z.gtb_ltb.
  destruct (Z.ltb_spec v MIN_INT32); destruct (Z.ltb_spec MAX_INT32 v);
    simpl; first [left; split; [lia | reflexivity]
                 | right; split; [lia | reflexivity]].
Qed.

End Range.

(** ** Encoder and decoder *)
Section Codec.

(** The unsigned residue the encoder prints. *)
Lemma encoder_spec (v : Z) :
  in_int32 v ->
  BitPattern32 (int32_to_bin32 v)
  /\ unsigned_of (int32_to_bin32 v) = (if v >=? 0 then v else v + 2 ^ 32).
Proof.
  intros Hv. apply (proj1 (in_int32_bounds v)) in Hv.
  unfold int32_to_bin32, Py.format_032b, BitPattern32, unsigned_of, MOD32.
  set (u := if v >=? 0 then v else 2 ^ 32 + v).
  assert (Hu : 0 <= u < 2 ^ Z.of_nat 32).
  { subst u. rewrite Z.geb_leb. change (Z.of_nat 32) with 32.
    destruct (Z.leb_spec 0 v); lia. }
  destruct (format_zero_padded_spec 2 ltac:(lia) is_bit 32 u
              ltac:(lia) Hu digit_char_bit) as (Hl & Hb & Hval).
  repeat split; [exact Hl | exact Hb |].
  rewrite Hval. subst u. destruct (v >=? 0); lia.
Qed.

(** What the decoder returns on a bit pattern. *)
Lemma decoder_spec (b : string) :
  BitPattern32 b ->
  bin32_to_int32 b
  = Ok (if unsigned_of b <? 2 ^ 31 then unsigned_of b
        else unsigned_of b - 2 ^ 32).
Proof.
  intros Hb. unfold bin32_to_int32.
  rewrite (proj2 (not_bin32_false b) Hb).
  unfold int_or_raise. rewrite int_bits.
  - simpl bind. destruct (sign_bit b Hb) as (c & -> & Hc).
    unfold MOD32. destruct (Ascii.eqb c "0").
    + destruct (Z.ltb_spec (unsigned_of b) (2 ^ 31)) as [_|Hge];
        [reflexivity|]. assert (unsigned_of b < 2 ^ 31) by now apply Hc. lia.
    + destruct (Z.ltb_spec (unsigned_of b) (2 ^ 31)) as [Hlt|_];
        [|reflexivity]. apply Hc in Hlt. discriminate.
  - destruct Hb as [Hl _]. intros ->. discriminate.
  - apply Hb.
Qed.

Lemma renderer_spec (b : string) (prefix_0x : bool) :
  BitPattern32 b ->
  bin32_to_hex8 b prefix_0x
  = Ok (if prefix_0x then "0x" ++ Py.format_08X (unsigned_of b)
        else Py.format_08X (unsigned_of b)).
Proof.
  intros Hb. unfold bin32_to_hex8.
  rewrite (proj2 (not_bin32_false b) Hb).
  unfold int_or_raise. rewrite int_bits.
  - reflexivity.
  - destruct Hb as [Hl _]. intros ->. discriminate.
  - apply Hb.
Qed.

Lemma decode_encode (v : Z) :
  in_int32 v -> bin32_to_int32 (int32_to_bin32 v) = Ok v.
Proof.
  intros Hv. destruct (encoder_spec v Hv) as [Hb Hu].
  rewrite (decoder_spec _ Hb), Hu. apply (proj1 (in_int32_bounds v)) in Hv.
  rewrite Z.geb_leb. f_equal.
  destruct (Z.leb_spec 0 v).
  - destruct (Z.ltb_spec v (2 ^ 31)); lia.
  - destruct (Z.ltb_spec (v + 2 ^ 32) (2 ^ 31)); lia.
Qed.

Lemma decoder_range (b : string) :
  BitPattern32 b -> exists v, bin32_to_int32 b = Ok v /\ in_int32 v.
Proof.
  intros Hb. rewrite (decoder_spec b Hb).
  pose proof (unsigned_of_bounds b Hb) as Hu.
  eexists. split; [reflexivity|]. apply in_int32_bounds.
  destruct (Z.ltb_spec (unsigned_of b) (2 ^ 31)); lia.
Qed.

Lemma encode_decode (b : string) :
  BitPattern32 b ->
  exists v, bin32_to_int32 b = Ok v /\ int32_to_bin32 v = b.
Proof.
  intros Hb. pose proof (unsigned_of_bounds b Hb) as Bu.
  pose proof (decoder_spec b Hb) as Hdec.
  set (v := if unsigned_of b <? 2 ^ 31 then unsigned_of b
            else unsigned_of b - 2 ^ 32) in *.
  assert (Hv : in_int32 v).
  { apply in_int32_bounds. subst v.
    destruct (Z.ltb_spec (unsigned_of b) (2 ^ 31)); lia. }
  exists v. split; [exact Hdec|].
  destruct (encoder_spec v Hv) as [[Hl Hbits] Hu].
  destruct Hb as [Hl' Hbits'].
  apply (positional_inj 2 ltac:(lia) is_bit is_bit_digit is_bit_inj);
    [congruence | exact Hbits | exact Hbits' |].
  fold (unsigned_of (int32_to_bin32 v)). fold (unsigned_of b).
  rewrite Hu, Z.geb_leb. subst v.
  destruct (Z.ltb_spec (unsigned_of b) (2 ^ 31));
    match goal with |- context [?x <=? ?y] => destruct (Z.leb_spec x y) end;
    lia.
Qed.

(** Bit [i] from the left of a string of bits is bit [len - 1 - i] of
    the number it denotes. *)
Lemma bits_testbit (s : string) (i : nat) :
  all_chars is_bit s = true -> (i < String.length s)%nat ->
  String.get i s
  = Some (if Z.testbit (positional 2 s 0) (Z.of_nat (String.length s - 1 - i))
          then "1"%char else "0"%char).
Proof.
  revert i. induction s as [|c r IH]; intros i Hs Hi.
  - simpl in Hi. lia.
  - cbn [all_chars] in Hs. apply andb_true_iff in Hs as [Hc Hr].
    cbn [String.length] in *. cbn [positional].
    rewrite (positional_acc 2). rewrite Z.mul_0_l, Z.add_0_l.
    set (m := String.length r) in *.
    pose proof (positional_bounds 2 ltac:(lia) is_bit is_bit_digit r Hr) as Br.
    fold m in Br. set (x := positional 2 r 0) in *.
    assert (Hpow : 0 < 2 ^ Z.of_nat m) by (apply Z.pow_pos_nonneg; lia).
    destruct i as [|j].
    + cbn [String.get]. replace (S m - 1 - 0)%nat with m by lia.
      assert (Hq : (char_digit c * 2 ^ Z.of_nat m + x) / 2 ^ Z.of_nat m
                   = char_digit c).
      { rewrite Z.div_add_l by lia. rewrite Z.div_small by lia. lia. }
      destruct (is_bit_cases c Hc) as [->| ->].
      * replace (Z.testbit _ _) with false; [reflexivity|].
        symmetry. apply Z.testbit_false; [lia|]. rewrite Hq. reflexivity.
      * replace (Z.testbit _ _) with true; [reflexivity|].
        symmetry. apply Z.testbit_true; [lia|]. rewrite Hq. reflexivity.
    + cbn [String.get]. rewrite (IH j Hr ltac:(lia)). fold m.
      replace (S m - 1 - S j)%nat with (m - 1 - j)%nat by lia.
      f_equal.
      rewrite <- (Z.mod_pow2_bits_low (char_digit c * 2 ^ Z.of_nat m + x)
                    (Z.of_nat m)) by lia.
      rewrite Z.add_comm, Z.mod_add by lia. rewrite Z.mod_small by lia.
      reflexivity.
Qed.

End Codec.

(** ** The matcher decides the language of a regular expression *)
Section Matcher.

Lemma nullable_lang (r : Re.regex) : Re.nullable r = true <-> lang r [].
Proof.
  split.
  - induction r; simpl; intros H; try discriminate.
    + constructor.
    + apply andb_true_iff in H as [H1 H2].
      apply (lang_cat r1 r2 [] []); auto.
    + apply orb_true_iff in H as [H|H];
        [apply lang_alt_l | apply lang_alt_r]; auto.
    + constructor.
  - intros H. remember (@nil Z) as s eqn:Hs.
    induction H; simpl; try reflexivity; try discriminate.
    + apply app_eq_nil in Hs as [-> ->].
      rewrite IHlang1, IHlang2; reflexivity.
    + rewrite IHlang by exact Hs. reflexivity.
    + rewrite IHlang by exact Hs. apply orb_true_r.
Qed.

Lemma deriv_sound (c : Z) (r : Re.regex) (s : Py.text) :
  lang (Re.deriv c r) s -> lang r (c :: s).
Proof.
  revert s. induction r; intros s H; simpl in H.
  - inversion H.
  - inversion H.
  - destruct (p c) eqn:Hp; inversion H; subst. now constructor.
  - destruct (Re.nullable r1) eqn:Hn.
    + inversion H as [| |a b s1 s2 H1 H2| a b t H1 | a b t H1 | |]; subst.
      * inversion H1 as [| |a b s1 s2 H3 H4| | | |]; subst.
        apply (lang_cat r1 r2 (c :: s1) s2); auto.
      * apply (lang_cat r1 r2 [] (c :: s));
          [now apply nullable_lang | auto].
    + inversion H as [| |a b s1 s2 H1 H2| | | |]; subst.
      apply (lang_cat r1 r2 (c :: s1) s2); auto.
  - inversion H; subst; [apply lang_alt_l | apply lang_alt_r]; auto.
  - inversion H as [| |a b s1 s2 H1 H2| | | |]; subst.
    apply (lang_star_cons r (c :: s1) s2); auto.
Qed.

Lemma deriv_complete (c : Z) (r : Re.regex) (s t : Py.text) :
  lang r t -> t = c :: s -> lang (Re.deriv c r) s.
Proof.
  intros H. revert s.
  induction H as [|p d Hp|r1 r2 s1 s2 H1 IH1 H2 IH2|r1 r2 u H1 IH1
                 |r1 r2 u H2 IH2|r|r s1 s2 H1 IH1 H2 IH2];
    intros s Ht; simpl.
  - discriminate.
  - injection Ht as -> <-. rewrite Hp. constructor.
  - destruct s1 as [|d s1'].
    + simpl in Ht. apply nullable_lang in H1. rewrite H1.
      apply lang_alt_r. now apply IH2.
    + simpl in Ht. injection Ht as -> <-.
      assert (Hd : lang (Re.Cat (Re.deriv c r1) r2) (s1' ++ s2)%list)
        by (constructor; auto).
      destruct (Re.nullable r1); [now apply lang_alt_l | exact Hd].
  - apply lang_alt_l. now apply IH1.
  - apply lang_alt_r. now apply IH2.
  - discriminate.
  - destruct s1 as [|d s1'].
    + simpl in Ht. now apply IH2.
    + simpl in Ht. injection Ht as -> <-. constructor; auto.
Qed.

Lemma fullmatch_lang (r : Re.regex) (s : Py.text) :
  Re.fullmatch r s = true <-> lang r s.
Proof.
  revert r. induction s as [|c s IH]; intros r; simpl.
  - apply nullable_lang.
  - rewrite IH. split.
    + apply deriv_sound.
    + intros H. now apply (deriv_complete c r s (c :: s)).
Qed.

Lemma lang_star_class (p : Z -> bool) (s : Py.text) :
  lang (Re.Star (Re.Cls p)) s <-> forallb p s = true.
Proof.
  split.
  - intros H. remember (Re.Star (Re.Cls p)) as r eqn:Hr.
    induction H; try discriminate.
    + reflexivity.
    + injection Hr as ->. inversion H; subst. simpl.
      rewrite IHlang2 by reflexivity.
      match goal with Hc : p _ = true |- _ => now rewrite Hc end.
  - induction s as [|c s IH]; simpl; intros H.
    + constructor.
    + apply andb_true_iff in H as [Hc Hs].
      apply (lang_star_cons (Re.Cls p) [c] s); [now constructor | auto].
Qed.

Lemma lang_plus_class (p : Z -> bool) (s : Py.text) :
  lang (Re.Plus (Re.Cls p)) s <-> s <> [] /\ forallb p s = true.
Proof.
  unfold Re.Plus. split.
  - intros H. inversion H as [| |a b s1 s2 H1 H2| | | |]; subst.
    inversion H1; subst. apply lang_star_class in H2. simpl.
    split; [discriminate|].
    match goal with Hc : p _ = true |- _ => now rewrite Hc end.
  - intros [Hne H]. destruct s as [|c s]; [contradiction|].
    simpl in H. apply andb_true_iff in H as [Hc Hs].
    apply (lang_cat (Re.Cls p) (Re.Star (Re.Cls p)) [c] s);
      [now constructor | now apply lang_star_class].
Qed.

Lemma sign_class_cases (c : Z) :
  Re.sign_class c = true <-> c = 43 \/ c = 45.
Proof.
  unfold Re.sign_class. rewrite orb_true_iff, !Z.eqb_eq. tauto.
Qed.

(** The words of [[+-]?\d+]. *)
Lemma lang_DEC_PATTERN (I : Py.Interp) (s : Py.text) :
  lang (_DEC_PATTERN I) s <-> exists v, decimal_text I s v.
Proof.
  unfold _DEC_PATTERN, Re.Opt. split.
  - intros H. inversion H as [| |a b s1 s2 H1 H2| | | |]; subst.
    apply lang_plus_class in H2 as [Hne Hds].
    inversion H1 as [| | |a b t H3|a b t H3| |]; subst.
    + inversion H3 as [|p c Hc| | | | |]; subst.
      apply sign_class_cases in Hc as [->| ->]; simpl; eexists;
        [now apply text_plus | now apply text_minus].
    + inversion H3; subst. simpl. eexists. now apply text_unsigned.
  - intros [v H]. inversion H as [ds Hne Hds|ds Hne Hds|ds Hne Hds]; subst.
    + apply (lang_cat _ _ [] s).
      * apply lang_alt_r. constructor.
      * now apply lang_plus_class.
    + apply (lang_cat _ _ [43] ds).
      * apply lang_alt_l. now constructor.
      * now apply lang_plus_class.
    + apply (lang_cat _ _ [45] ds).
      * apply lang_alt_l. now constructor.
      * now apply lang_plus_class.
Qed.

End Matcher.

(** ** The parser *)
Section Parser.

Variable I : Py.Interp.

(** Trimmed text never ends in a newline, so the [$] of the pattern
    only ever matches at the very end. *)
Lemma rstrip_no_final_newline (s : Py.text) :
  Re.before_final_newline (Py.rstrip s) = None.
Proof.
  induction s as [|c s IH]; [reflexivity|].
  cbn [Py.rstrip]. destruct (Py.rstrip s) as [|d r] eqn:Hr.
  - destruct (Py.isspace c) eqn:Hc; [reflexivity|].
    cbn [Re.before_final_newline].
    destruct (Z.eqb_spec c 10) as [->|_]; [|reflexivity].
    discriminate.
  - change (Re.before_final_newline (c :: d :: r))
      with (option_map (cons c) (Re.before_final_newline (d :: r))).
    now rewrite IH.
Qed.

Lemma match_anchored_strip (r : Re.regex) (s : Py.text) :
  Re.match_anchored r (Py.strip s) = Re.fullmatch r (Py.strip s).
Proof.
  unfold Re.match_anchored, Py.strip.
  rewrite rstrip_no_final_newline. apply orb_false_r.
Qed.

Lemma decimal_class_not_sign (c : Z) :
  Re.decimal_class I c = true -> Re.sign_class c = false.
Proof.
  unfold Re.decimal_class, Re.sign_class. intros H.
  destruct (Z.eqb_spec c 43) as [->|_]; [discriminate|].
  destruct (Z.eqb_spec c 45) as [->|_]; [discriminate|]. reflexivity.
Qed.

Lemma int10_digits_number (ds : Py.text) (acc : Z) :
  forallb (Re.decimal_class I) ds = true ->
  Py.int10_digits I ds acc = Some (number_of I ds acc).
Proof.
  revert acc. induction ds as [|c ds IH]; intros acc; simpl.
  - reflexivity.
  - rewrite andb_true_iff. intros [Hc Hds].
    unfold Re.decimal_class in Hc. unfold digit_of.
    destruct (Py.decimal I c); [now apply IH | discriminate].
Qed.

Lemma int10_unsigned_spec (ds : Py.text) (negative : bool) :
  ds <> [] -> forallb (Re.decimal_class I) ds = true ->
  Py.int10_unsigned I ds negative
  = if Py.exceeds_limit I (Z.of_nat (List.length ds))
    then Py.Int_exceeds_limit
    else Py.Int_value (if negative then - number_of I ds 0
                       else number_of I ds 0).
Proof.
  intros Hne Hds. unfold Py.int10_unsigned.
  destruct ds as [|c r]; [contradiction|].
  now rewrite (int10_digits_number _ 0 Hds).
Qed.

(** On a literal of the grammar the builtin returns the integer the
    literal denotes, unless the literal has more digits than the
    limit. *)
Lemma int10_decimal_text (t : Py.text) (v : Z) :
  decimal_text I t v ->
  Py.int10 I t
  = if Py.exceeds_limit I (digit_count t) then Py.Int_exceeds_limit
    else Py.Int_value v.
Proof.
  intros H. destruct H as [ds Hne Hds|ds Hne Hds|ds Hne Hds].
  - destruct ds as [|c r] eqn:E; [contradiction|].
    assert (Hc : Re.decimal_class I c = true)
      by (simpl in Hds; now apply andb_true_iff in Hds).
    pose proof (decimal_class_not_sign c Hc) as Hs.
    unfold digit_count. rewrite Hs.
    unfold Re.sign_class in Hs. apply orb_false_iff in Hs as [Hp Hm].
    unfold Py.int10. rewrite Hp, Hm.
    now rewrite (int10_unsigned_spec (c :: r) false) by (auto; discriminate).
  - cbn [Py.int10 digit_count Re.sign_class Z.eqb Pos.eqb orb].
    now rewrite (int10_unsigned_spec ds false).
  - cbn [Py.int10 digit_count Re.sign_class Z.eqb Pos.eqb orb].
    now rewrite (int10_unsigned_spec ds true).
Qed.

Lemma decimal_text_value (t : Py.text) (v : Z) :
  decimal_text I t v ->
  v = match t with
      | [] => 0
      | c :: r =>
          if c =? 43 then number_of I r 0
          else if c =? 45 then - number_of I r 0
          else number_of I t 0
      end.
Proof.
  intros H. destruct H as [ds Hne Hds|ds Hne Hds|ds Hne Hds];
    [|reflexivity|reflexivity].
  destruct ds as [|c r]; [contradiction|].
  assert (Hc : Re.decimal_class I c = true)
    by (simpl in Hds; now apply andb_true_iff in Hds).
  apply decimal_class_not_sign in Hc. unfold Re.sign_class in Hc.
  apply orb_false_iff in Hc as [Hp Hm]. now rewrite Hp, Hm.
Qed.

Lemma decimal_text_functional (t : Py.text) (v w : Z) :
  decimal_text I t v -> decimal_text I t w -> v = w.
Proof.
  intros Hv Hw. apply decimal_text_value in Hv, Hw. congruence.
Qed.

Lemma decimal_text_nonempty (t : Py.text) (v : Z) :
  decimal_text I t v -> t <> [].
Proof. intros H. destruct H; [assumption | discriminate | discriminate]. Qed.

(** The three outcomes of the parser on a string. *)
Lemma parse_cases (s : Py.text) :
  (exists v, decimal_text I (Py.strip s) v
             /\ Py.exceeds_limit I (digit_count (Py.strip s)) = false
             /\ parse_decimal_signed I (Some s) = Ok v)
  \/ (exists v, decimal_text I (Py.strip s) v
                /\ Py.exceeds_limit I (digit_count (Py.strip s)) = true
                /\ parse_decimal_signed I (Some s)
                   = Raise Exceeds_the_limit_for_integer_string_conversion)
  \/ ((forall v, ~ decimal_text I (Py.strip s) v)
      /\ exists e, parse_decimal_signed I (Some s) = Raise e
                   /\ kind_of e = Some InvalidFormat).
Proof.
  unfold parse_decimal_signed. cbv zeta. rewrite match_anchored_strip.
  set (t := Py.strip s).
  destruct t as [|c r] eqn:Et.
  - right. right. split.
    + intros v Hv. now apply decimal_text_nonempty in Hv.
    + eexists. split; reflexivity.
  - rewrite <- Et.
    destruct (Re.fullmatch (_DEC_PATTERN I) t) eqn:Hm; cbn [negb].
    + apply fullmatch_lang, lang_DEC_PATTERN in Hm as [v Hv].
      unfold int10_or_raise. rewrite (int10_decimal_text t v Hv).
      destruct (Py.exceeds_limit I (digit_count t)) eqn:Hx.
      * right. left. exists v. repeat split; assumption.
      * left. exists v. repeat split; assumption.
    + right. right. split.
      * intros v Hv.
        assert (Ht : Re.fullmatch (_DEC_PATTERN I) t = true)
          by (apply fullmatch_lang, lang_DEC_PATTERN; now exists v).
        congruence.
      * eexists. split; reflexivity.
Qed.

Lemma parse_missing :
  parse_decimal_signed I None = Raise Missing_input_value.
Proof. reflexivity. Qed.

(** Every failure of the parser is an InvalidFormat or the digit limit
    of the builtin. *)
Lemma parse_raise_kind (x : option Py.text) (e : ValueError) :
  parse_decimal_signed I x = Raise e ->
  kind_of e = Some InvalidFormat
  \/ e = Exceeds_the_limit_for_integer_string_conversion.
Proof.
  destruct x as [s|].
  - intros H.
    destruct (parse_cases s)
      as [(v & _ & _ & Hv)|[(v & _ & _ & Hv)|(_ & e' & He & Hk)]].
    + congruence.
    + right. congruence.
    + left. congruence.
  - rewrite parse_missing. intros H. injection H as <-. now left.
Qed.

(** Within the digit limit every failure of the parser is an
    InvalidFormat. *)
Lemma parse_raise_invalid (s : Py.text) (e : ValueError) :
  Py.exceeds_limit I (digit_count (Py.strip s)) = false ->
  parse_decimal_signed I (Some s) = Raise e ->
  kind_of e = Some InvalidFormat.
Proof.
  intros Hx H.
  destruct (parse_cases s)
    as [(v & _ & _ & Hv)|[(v & _ & Hx' & Hv)|(_ & e' & He & Hk)]];
    congruence.
Qed.

End Parser.

(** ** Rendering *)
Section Rendering.

(** The eight hexadecimal digits of an unsigned 32-bit number. *)
Lemma format_08X_spec (u : Z) :
  0 <= u < 2 ^ 32 ->
  String.length (Py.format_08X u) = 8%nat
  /\ all_chars is_hex_upper_digit (Py.format_08X u) = true
  /\ positional 16 (Py.format_08X u) 0 = u.
Proof.
  intros Hu. unfold Py.format_08X.
  apply (format_zero_padded_spec 16 ltac:(lia) is_hex_upper_digit 8 u);
    [lia | change (Z.of_nat 8) with 8; lia | apply digit_char_hex].
Qed.

(** The decimal numeral of a number is a numeral that denotes it. *)
Lemma repr_decimal_literal (c : Z) : decimal_literal (Py.repr c) c.
Proof.
  unfold Py.repr, Py.sign_of.
  assert (Hd : all_chars is_decimal_digit (Py.digits 10 (Z.abs c)) = true)
    by (apply (digits_chars 10 ltac:(lia)), digit_char_decimal).
  assert (Hv : positional 10 (Py.digits 10 (Z.abs c)) 0 = Z.abs c)
    by (apply (digits_value 10 ltac:(lia)); lia).
  assert (Hne : Py.digits 10 (Z.abs c) <> EmptyString)
    by (apply (digits_nonempty 10)).
  destruct (Z.ltb_spec c 0) as [Hneg|Hpos].
  - replace c with (- positional 10 (Py.digits 10 (Z.abs c)) 0) at 2 by lia.
    apply lit_minus; assumption.
  - replace c with (positional 10 (Py.digits 10 (Z.abs c)) 0) at 2 by lia.
    apply lit_unsigned; assumption.
Qed.

(** [str] returns on every number of fewer than 640 digits, whatever
    the limit. *)
Lemma str_small (I : Py.Interp) (x : Z) :
  Z.abs x < 10 ^ 640 -> Py.str I x = Some (Py.repr x).
Proof.
  intros Hx. unfold Py.str, Py.exceeds_limit.
  pose proof (digits_length 10 ltac:(lia) 640 (Z.abs x) ltac:(lia)
                ltac:(split; [lia | exact Hx])) as Hl.
  destruct (Z.ltb_spec 640 (Z.of_nat (String.length (Py.digits 10 (Z.abs x)))));
    [lia | reflexivity].
Qed.

Lemma str_int32 (I : Py.Interp) (x : Z) :
  in_int32 x -> Py.str I x = Some (Py.repr x).
Proof.
  intros Hx. apply str_small. unfold in_int32, MIN_INT32, MAX_INT32 in Hx.
  assert (10 ^ 10 <= 10 ^ 640) by (apply Z.pow_le_mono_r; lia). lia.
Qed.

End Rendering.

(** ** The pipeline *)
Section Pipeline.

Variable I : Py.Interp.

(** [convert] on text that parses: every stage succeeds up to the
    selection of the output, which is the last thing decided. *)
Lemma convert_parsed (x : option Py.text) (v : Z) (fmt : Py.text) (p : bool) :
  parse_decimal_signed I x = Ok v ->
  convert I x fmt p
  = let c := fst (saturate_int32 v) in
    let b := int32_to_bin32 c in
    let h := if p then "0x" ++ Py.format_08X (unsigned_of b)
             else Py.format_08X (unsigned_of b) in
    value_out <-
      (if Py.eqb fmt (Py.codes "DEC") then Ok (Py.repr c)
       else if Py.eqb fmt (Py.codes "BIN") then Ok b
       else if Py.eqb fmt (Py.codes "HEX") then Ok h
       else Raise (Unknown_format_selector fmt)) ;;
    Ok (mkResult value_out (detect_overflow v) (snd (saturate_int32 v))
          v c b h).
Proof.
  intros Hp. unfold convert. rewrite Hp. cbn [bind].
  pose proof (saturate_in_range v) as Hc.
  destruct (saturate_int32 v) as [c sat]. cbn [fst snd] in *.
  destruct (encoder_spec c Hc) as [Hb _].
  rewrite (renderer_spec _ p Hb). cbn [bind].
  unfold str_or_raise. rewrite (str_int32 I c Hc). reflexivity.
Qed.

Lemma convert_unparsed (x : option Py.text) (e : ValueError)
      (fmt : Py.text) (p : bool) :
  parse_decimal_signed I x = Raise e -> convert I x fmt p = Raise e.
Proof. intros Hp. unfold convert. now rewrite Hp. Qed.

(** A result of [convert] is built from the parsed integer alone. *)
Lemma convert_ok (x : option Py.text) (fmt : Py.text) (p : bool) (r : Result) :
  convert I x fmt p = Ok r ->
  parse_decimal_signed I x = Ok (x_input r)
  /\ overflow r = detect_overflow (x_input r)
  /\ saturated r = snd (saturate_int32 (x_input r))
  /\ x_sat r = fst (saturate_int32 (x_input r))
  /\ bin32 r = int32_to_bin32 (x_sat r).
Proof.
  intros H. destruct (parse_decimal_signed I x) as [v|e] eqn:Hp.
  - rewrite (convert_parsed x v fmt p Hp) in H. cbv zeta in H.
    destruct (Py.eqb fmt (Py.codes "DEC"));
      [|destruct (Py.eqb fmt (Py.codes "BIN"));
        [|destruct (Py.eqb fmt (Py.codes "HEX"))]];
      cbn [bind] in H; try discriminate;
      injection H as <-; cbn; auto.
  - rewrite (convert_unparsed x e fmt p Hp) in H. discriminate.
Qed.

Lemma eqb_eq (s t : Py.text) : Py.eqb s t = true <-> s = t.
Proof.
  unfold Py.eqb. destruct (list_eq_dec Z.eq_dec s t);
    split; intros H; congruence.
Qed.

Lemma eqb_neq (s t : Py.text) : Py.eqb s t = false <-> s <> t.
Proof.
  unfold Py.eqb. destruct (list_eq_dec Z.eq_dec s t);
    split; intros H; congruence.
Qed.

End Pipeline.

(** ** test.py *)
Section Tests.

Variable I : Py.Interp.

Example test_positive :
  exists r, convert I (Some (Py.codes "123")) (Py.codes "DEC") false = Ok r
            /\ value_out r = "123" /\ overflow r = 0 /\ saturated r = 0.
Proof. eexists. split; [vm_compute; reflexivity|]. repeat split. Qed.

Example test_zero :
  exists r, convert I (Some (Py.codes "0")) (Py.codes "BIN") false = Ok r
            /\ value_out r = Py.replicate 32 "0"
            /\ overflow r = 0 /\ saturated r = 0.
Proof. eexists. split; [vm_compute; reflexivity|]. repeat split. Qed.

Example test_negative :
  exists r, convert I (Some (Py.codes "-123")) (Py.codes "HEX") false = Ok r
            /\ overflow r = 0 /\ saturated r = 0
            /\ bin32_to_int32 (bin32 r) = Ok (-123).
Proof. eexists. split; [vm_compute; reflexivity|]. repeat split. Qed.

Example test_boundary_max :
  exists r, convert I (Some (Py.codes (Py.repr MAX_INT32))) (Py.codes "BIN")
              false = Ok r
            /\ overflow r = 0 /\ saturated r = 0
            /\ String.get 0 (bin32 r) = Some "0"%char
            /\ bin32_to_int32 (bin32 r) = Ok MAX_INT32.
Proof. eexists. split; [vm_compute; reflexivity|]. repeat split. Qed.

Example test_boundary_min :
  exists r, convert I (Some (Py.codes (Py.repr MIN_INT32))) (Py.codes "HEX")
              false = Ok r
            /\ overflow r = 0 /\ saturated r = 0
            /\ bin32 r = String "1" (Py.replicate 31 "0")
            /\ bin32_to_int32 (bin32 r) = Ok MIN_INT32.
Proof. eexists. split; [vm_compute; reflexivity|]. repeat split. Qed.

Example test_overflow_max_plus_1 :
  exists r, convert I (Some (Py.codes (Py.repr (MAX_INT32 + 1))))
              (Py.codes "DEC") false = Ok r
            /\ overflow r = 1 /\ saturated r = 1
            /\ value_out r = Py.repr MAX_INT32.
Proof. eexists. split; [vm_compute; reflexivity|]. repeat split. Qed.

Example test_overflow_min_minus_1 :
  exists r, convert I (Some (Py.codes (Py.repr (MIN_INT32 - 1))))
              (Py.codes "DEC") false = Ok r
            /\ overflow r = 1 /\ saturated r = 1
            /\ value_out r = Py.repr MIN_INT32.
Proof. eexists. split; [vm_compute; reflexivity|]. repeat split. Qed.

Example test_bin_roundtrip_examples :
  bin32_to_int32 (int32_to_bin32 (-1)) = Ok (-1)
  /\ bin32_to_int32 (int32_to_bin32 5) = Ok 5
  /\ bin32_to_int32 (int32_to_bin32 (-5)) = Ok (-5).
Proof. repeat split. Qed.

End Tests.
(* ================================================================== *)
(** * Part III: the claims of the specification *)
(* ================================================================== *)

(** C1. The two's-complement encoder and decoder are mutual inverses
    and form a bijection between the integers of [-2^31, 2^31-1] and the
    32-character strings of '0'/'1': decoding the encoding of such an
    integer [v] returns [v], and encoding the decoding of such a string
    [b] returns [b]; each function lands in the domain of the other. *)
Theorem twos_complement_bijection :
  (forall v : Z,
      - 2 ^ 31 <= v <= 2 ^ 31 - 1 ->
      BitPattern32 (int32_to_bin32 v)
      /\ bin32_to_int32 (int32_to_bin32 v) = Ok v)
  /\ (forall b : string,
         String.length b = 32%nat -> all_chars is_bit b = true ->
         exists v, bin32_to_int32 b = Ok v
                   /\ - 2 ^ 31 <= v <= 2 ^ 31 - 1
                   /\ int32_to_bin32 v = b).
Proof.
  split.
  - intros v Hv. apply (proj2 (in_int32_bounds v)) in Hv. split.
    + apply encoder_spec, Hv.
    + apply decode_encode, Hv.
  - intros b Hl Hb.
    destruct (encode_decode b (conj Hl Hb)) as (v & Hdec & Henc).
    destruct (decoder_range b (conj Hl Hb)) as (w & Hdec' & Hw).
    assert (Hvw : v = w) by congruence. subst w.
    apply (proj1 (in_int32_bounds v)) in Hw.
    exists v. split; [exact Hdec | split; [exact Hw | exact Henc]].
Qed.

Lemma twos_complement_bijection_witness :
  bin32_to_int32 (int32_to_bin32 (-123)) = Ok (-123)
  /\ exists v, bin32_to_int32 "11111111111111111111111110000101" = Ok v
               /\ - 2 ^ 31 <= v <= 2 ^ 31 - 1
               /\ int32_to_bin32 v = "11111111111111111111111110000101".
Proof.
  split.
  - apply (proj1 twos_complement_bijection (-123)). lia.
  - apply (proj2 twos_complement_bijection
             "11111111111111111111111110000101"); reflexivity.
Defined.

(** C2, as the specification words it, fails: with the selector "FOO"
    and the text "12a" the failure is the parser's InvalidFormat and not
    UnknownFormatSelector, because the selector is looked at last. *)
Lemma convert_unknown_selector_counterexample :
  Py.codes "FOO" <> Py.codes "DEC" /\ Py.codes "FOO" <> Py.codes "BIN"
  /\ Py.codes "FOO" <> Py.codes "HEX"
  /\ convert sample_interp (Some (Py.codes "12a")) (Py.codes "FOO") false
     = Raise (Invalid_decimal_integer (Py.codes "12a"))
  /\ fails_with (convert sample_interp (Some (Py.codes "12a"))
                   (Py.codes "FOO") false) InvalidFormat
  /\ ~ fails_with (convert sample_interp (Some (Py.codes "12a"))
                     (Py.codes "FOO") false) UnknownFormatSelector.
Proof.
  repeat split; try discriminate.
  - eexists. split; reflexivity.
  - intros (e & He & Hk). vm_compute in He. injection He as <-.
    discriminate.
Qed.

(** C2, amended. When [convert] is called with a format selector outside
    {DEC, BIN, HEX} it never returns a result; the selector is examined
    after parsing, classification, encoding and hexadecimal rendering, so
    the failure is UnknownFormatSelector exactly when the input text
    parses, and otherwise it is the parser's failure: InvalidFormat, or
    the error of the builtin [int] for a literal with more digits than
    the interpreter's limit. *)
Theorem convert_unknown_selector
        (I : Py.Interp) (x : option Py.text) (fmt : Py.text) (p : bool) :
  fmt <> Py.codes "DEC" -> fmt <> Py.codes "BIN" -> fmt <> Py.codes "HEX" ->
  (forall v, parse_decimal_signed I x = Ok v ->
             convert I x fmt p = Raise (Unknown_format_selector fmt))
  /\ (forall e, parse_decimal_signed I x = Raise e ->
                convert I x fmt p = Raise e
                /\ (kind_of e = Some InvalidFormat
                    \/ e = Exceeds_the_limit_for_integer_string_conversion))
  /\ (fails_with (convert I x fmt p) UnknownFormatSelector
      <-> exists v, parse_decimal_signed I x = Ok v)
  /\ (forall r, convert I x fmt p <> Ok r).
Proof.
  intros Hd Hb Hh.
  apply eqb_neq in Hd, Hb, Hh.
  assert (Hparsed : forall v, parse_decimal_signed I x = Ok v ->
                              convert I x fmt p
                              = Raise (Unknown_format_selector fmt)).
  { intros v Hv. rewrite (convert_parsed I x v fmt p Hv). cbv zeta.
    rewrite Hd, Hb, Hh. reflexivity. }
  assert (Hunparsed : forall e, parse_decimal_signed I x = Raise e ->
                                convert I x fmt p = Raise e
                                /\ (kind_of e = Some InvalidFormat
                                    \/ e = Exceeds_the_limit_for_integer_string_conversion)).
  { intros e He. split; [now apply convert_unparsed|].
    now apply (parse_raise_kind I x). }
  split; [exact Hparsed|]. split; [exact Hunparsed|]. split; [split|].
  - intros (e & He & Hk). destruct (parse_decimal_signed I x) as [v|e'] eqn:Hp.
    + now exists v.
    + destruct (Hunparsed e' eq_refl) as [Hc [Hk'| ->]];
        rewrite Hc in He; injection He as <-; cbn in Hk; congruence.
  - intros [v Hv]. exists (Unknown_format_selector fmt).
    split; [apply (Hparsed v Hv) | reflexivity].
  - intros r Hr. destruct (parse_decimal_signed I x) as [v|e] eqn:Hp.
    + rewrite (Hparsed v eq_refl) in Hr. discriminate.
    + destruct (Hunparsed e eq_refl) as [Hc _]. congruence.
Qed.

Lemma convert_unknown_selector_witness :
  convert sample_interp (Some (Py.codes "12")) (Py.codes "FOO") true
  = Raise (Unknown_format_selector (Py.codes "FOO"))
  /\ (fails_with (convert sample_interp (Some (Py.codes "12a"))
                    (Py.codes "FOO") true) UnknownFormatSelector
      <-> exists v, parse_decimal_signed sample_interp
                      (Some (Py.codes "12a")) = Ok v).
Proof.
  split.
  - apply (proj1 (convert_unknown_selector sample_interp
                    (Some (Py.codes "12")) (Py.codes "FOO") true
                    ltac:(discriminate) ltac:(discriminate)
                    ltac:(discriminate)) 12).
    reflexivity.
  - apply (convert_unknown_selector sample_interp
             (Some (Py.codes "12a")) (Py.codes "FOO") true);
      discriminate.
Defined.

(** C3. Saturation correctness: the clamped value returned by
    [saturate_int32] is 2^31-1 when [v > 2^31-1], is -2^31 when
    [v < -2^31], and is [v] itself when [v] is in [-2^31, 2^31-1] (so it
    is never any other value); the [x_sat] field of a result of
    [convert] is that clamped value of the parsed input. *)
Theorem saturation_correctness (v : Z) :
  (v > 2 ^ 31 - 1 -> fst (saturate_int32 v) = 2 ^ 31 - 1)
  /\ (v < - 2 ^ 31 -> fst (saturate_int32 v) = - 2 ^ 31)
  /\ (- 2 ^ 31 <= v <= 2 ^ 31 - 1 -> fst (saturate_int32 v) = v)
  /\ (forall (I : Py.Interp) (x : option Py.text) (fmt : Py.text)
             (p : bool) (r : Result),
         convert I x fmt p = Ok r ->
         parse_decimal_signed I x = Ok v ->
         x_input r = v /\ x_sat r = fst (saturate_int32 v)).
Proof.
  pose proof (saturate_cases v) as Hc.
  unfold in_int32, MIN_INT32, MAX_INT32 in Hc.
  repeat split.
  - intros Hv. destruct Hc as [[_ ->]|[[H _]|[H _]]];
      [reflexivity | lia | lia].
  - intros Hv. destruct Hc as [[H _]|[[_ ->]|[H _]]];
      [lia | reflexivity | lia].
  - intros Hv. destruct Hc as [[H _]|[[H _]|[_ ->]]];
      [lia | lia | reflexivity].
  - destruct (convert_ok I x fmt p r H) as (Hp & _). congruence.
  - destruct (convert_ok I x fmt p r H) as (Hp & _ & _ & Hs & _).
    congruence.
Qed.

Lemma saturation_correctness_witness :
  fst (saturate_int32 (2 ^ 31)) = 2 ^ 31 - 1
  /\ fst (saturate_int32 (- 2 ^ 31 - 1)) = - 2 ^ 31
  /\ fst (saturate_int32 (-123)) = -123.
Proof.
  split; [|split].
  - apply (proj1 (saturation_correctness (2 ^ 31))). lia.
  - apply (proj1 (proj2 (saturation_correctness (- 2 ^ 31 - 1)))). lia.
  - apply (proj1 (proj2 (proj2 (saturation_correctness (-123))))). lia.
Defined.

(** C4. Overflow classification: [detect_overflow v] is 1 if and only if
    [v < -2^31] or [v > 2^31-1], and is 0 otherwise; the [overflow] field
    of a result of [convert] is [detect_overflow] of the parsed input. *)
Theorem overflow_classification (v : Z) :
  (detect_overflow v = 1 <-> v < - 2 ^ 31 \/ v > 2 ^ 31 - 1)
  /\ (detect_overflow v = 0 <-> - 2 ^ 31 <= v <= 2 ^ 31 - 1)
  /\ (forall (I : Py.Interp) (x : option Py.text) (fmt : Py.text)
             (p : bool) (r : Result),
         convert I x fmt p = Ok r ->
         parse_decimal_signed I x = Ok v ->
         x_input r = v /\ overflow r = detect_overflow v).
Proof.
  pose proof (detect_overflow_cases v) as Hc.
  unfold in_int32, MIN_INT32, MAX_INT32 in Hc.
  repeat split.
  - intros H. destruct Hc as [[_ H0]|[Hr _]]; [congruence | exact Hr].
  - intros H. destruct Hc as [[Hr _]|[_ H1]]; [lia | exact H1].
  - destruct Hc as [[Hr _]|[_ H1]]; [lia | congruence].
  - destruct Hc as [[Hr _]|[_ H1]]; [lia | congruence].
  - intros H. destruct Hc as [[_ H0]|[Hr _]]; [exact H0 | lia].
  - destruct (convert_ok I x fmt p r H) as (Hp & _). congruence.
  - destruct (convert_ok I x fmt p r H) as (Hp & Ho & _). congruence.
Qed.

Lemma overflow_classification_witness :
  detect_overflow (2 ^ 31) = 1 /\ detect_overflow (- 2 ^ 31) = 0.
Proof.
  split.
  - apply (proj1 (overflow_classification (2 ^ 31))). right. lia.
  - apply (proj1 (proj2 (overflow_classification (- 2 ^ 31)))). lia.
Defined.

(** C5. Encoder definition and boundary cases: for a clamped value [v]
    of [-2^31, 2^31-1], [int32_to_bin32 v] is the 32-digit binary
    representation, most significant digit first and left-padded with
    '0', of [v] when [v >= 0] and of [v + 2^32] when [v < 0]: it has 32
    characters '0'/'1', it denotes that number, its character [i] is bit
    [31 - i] of that number, and it is the shortest binary numeral of
    that number behind a run of '0'.  [int32_to_bin32 (-1)] is 32
    characters '1' and [int32_to_bin32 (-2^31)] is '1' followed by 31
    characters '0'. *)
Theorem encoder_definition :
  (forall v : Z,
      - 2 ^ 31 <= v <= 2 ^ 31 - 1 ->
      let u := if v >=? 0 then v else v + 2 ^ 32 in
      String.length (int32_to_bin32 v) = 32%nat
      /\ all_chars is_bit (int32_to_bin32 v) = true
      /\ unsigned_of (int32_to_bin32 v) = u
      /\ (forall i : nat,
             (i < 32)%nat ->
             String.get i (int32_to_bin32 v)
             = Some (if Z.testbit u (Z.of_nat (31 - i))
                     then "1"%char else "0"%char))
      /\ int32_to_bin32 v
         = Py.replicate (32 - String.length (Py.digits 2 u)) "0"
           ++ Py.digits 2 u)
  /\ int32_to_bin32 (-1) = Py.replicate 32 "1"
  /\ int32_to_bin32 (- 2 ^ 31) = String "1" (Py.replicate 31 "0").
Proof.
  split; [|split; reflexivity].
  intros v Hv u. apply (proj2 (in_int32_bounds v)) in Hv.
  destruct (encoder_spec v Hv) as [[Hl Hb] Hu]. fold u in Hu.
  split; [exact Hl|]. split; [exact Hb|]. split; [exact Hu|]. split.
  - intros i Hi.
    rewrite (bits_testbit _ i Hb) by (rewrite Hl; exact Hi).
    rewrite Hl. fold (unsigned_of (int32_to_bin32 v)). rewrite Hu.
    replace (32 - 1 - i)%nat with (31 - i)%nat by lia. reflexivity.
  - apply (proj1 (in_int32_bounds v)) in Hv.
    assert (Hu0 : 0 <= u)
      by (subst u; rewrite Z.geb_leb; destruct (Z.leb_spec 0 v); lia).
    unfold int32_to_bin32, Py.format_032b, Py.format_zero_padded, MOD32.
    replace (if v >=? 0 then v else 2 ^ 32 + v) with u
      by (subst u; destruct (v >=? 0); lia).
    unfold Py.sign_of. destruct (Z.ltb_spec u 0) as [Hneg|_]; [lia|].
    rewrite Z.abs_eq by exact Hu0. cbn [append String.length].
    rewrite Nat.sub_0_r. reflexivity.
Qed.

Lemma encoder_definition_witness :
  String.length (int32_to_bin32 (-5)) = 32%nat
  /\ unsigned_of (int32_to_bin32 (-5)) = 2 ^ 32 - 5
  /\ String.get 29 (int32_to_bin32 (-5)) = Some "0"%char.
Proof.
  pose proof (proj1 encoder_definition (-5) ltac:(lia))
    as (Hl & _ & Hu & Hbit & _).
  split; [exact Hl|]. split; [exact Hu|].
  exact (Hbit 29%nat ltac:(lia)).
Defined.

(** C6, as the specification words it, fails: a literal of 4301 digits
    '1' is in the grammar, yet under the default limit of 4300 digits it
    does not parse, and the failure is the error of the builtin [int],
    which is not InvalidFormat.  (The "decimal digits" of the grammar
    are those of every script: with the Arabic-Indic digits in the
    interpreter's database, U+0663 alone parses to 3.) *)
Lemma parser_language_counterexample :
  (exists v, decimal_text sample_interp (Py.strip (repeat 49 4301)) v)
  /\ parse_decimal_signed sample_interp (Some (repeat 49 4301))
     = Raise Exceeds_the_limit_for_integer_string_conversion
  /\ (forall v, parse_decimal_signed sample_interp (Some (repeat 49 4301))
                <> Ok v)
  /\ ~ fails_with (parse_decimal_signed sample_interp (Some (repeat 49 4301)))
         InvalidFormat
  /\ parse_decimal_signed sample_interp (Some [1635]) = Ok 3.
Proof.
  assert (Hp : parse_decimal_signed sample_interp (Some (repeat 49 4301))
               = Raise Exceeds_the_limit_for_integer_string_conversion)
    by (vm_compute; reflexivity).
  split; [|split; [exact Hp | split; [|split]]].
  - replace (Py.strip (repeat 49 4301)) with (repeat 49 4301)
      by (vm_compute; reflexivity).
    eexists. apply text_unsigned; [discriminate | vm_compute; reflexivity].
  - intros v Hv. rewrite Hp in Hv. discriminate.
  - intros (e & He & Hk). rewrite Hp in He. injection He as <-.
    discriminate.
  - vm_compute. reflexivity.
Qed.

(** C6, amended. Parser accept/reject language: [parse_decimal_signed]
    succeeds exactly on the strings that, once trimmed of leading and
    trailing white space, are an optional single '+' or '-' followed by
    one or more decimal digits (of any script the interpreter's Unicode
    database knows, '0'..'9' included) and nothing else, and whose
    number of digits is within the interpreter's limit on integer string
    conversions (4300 digits unless configured, never applied below 641
    digits, none when the limit is 0); it then returns the exact integer
    the digits denote.  A literal of that form with more digits than the
    limit fails with the error of the builtin [int]; every string that
    is not of that form fails with InvalidFormat.  In particular the
    empty string, "  ", "12a", "1.5", "++3" and "0x10" fail with
    InvalidFormat, and "0", "-0", "+7" and "-2147483648" parse. *)
Theorem parser_language :
  (forall (I : Py.Interp) (s : Py.text),
      (exists v, decimal_text I (Py.strip s) v
                 /\ Py.exceeds_limit I (digit_count (Py.strip s)) = false
                 /\ parse_decimal_signed I (Some s) = Ok v)
      \/ (exists v, decimal_text I (Py.strip s) v
                    /\ Py.exceeds_limit I (digit_count (Py.strip s)) = true
                    /\ parse_decimal_signed I (Some s)
                       = Raise Exceeds_the_limit_for_integer_string_conversion)
      \/ ((forall v, ~ decimal_text I (Py.strip s) v)
          /\ fails_with (parse_decimal_signed I (Some s)) InvalidFormat))
  /\ (forall (I : Py.Interp) (s : Py.text) (v : Z),
         parse_decimal_signed I (Some s) = Ok v
         <-> decimal_text I (Py.strip s) v
             /\ Py.exceeds_limit I (digit_count (Py.strip s)) = false)
  /\ (forall (I : Py.Interp) (n : Z),
         Py.exceeds_limit I n = true
         <-> 640 < n /\ 0 < Py.int_max_str_digits I < n)
  /\ (forall I : Py.Interp,
         fails_with (parse_decimal_signed I (Some [])) InvalidFormat
         /\ fails_with (parse_decimal_signed I (Some (Py.codes "  ")))
              InvalidFormat
         /\ fails_with (parse_decimal_signed I (Some (Py.codes "12a")))
              InvalidFormat
         /\ fails_with (parse_decimal_signed I (Some (Py.codes "1.5")))
              InvalidFormat
         /\ fails_with (parse_decimal_signed I (Some (Py.codes "++3")))
              InvalidFormat
         /\ fails_with (parse_decimal_signed I (Some (Py.codes "0x10")))
              InvalidFormat)
  /\ (forall I : Py.Interp,
         parse_decimal_signed I (Some (Py.codes "0")) = Ok 0
         /\ parse_decimal_signed I (Some (Py.codes "-0")) = Ok 0
         /\ parse_decimal_signed I (Some (Py.codes "+7")) = Ok 7
         /\ parse_decimal_signed I (Some (Py.codes "-2147483648"))
            = Ok (-2147483648)
         /\ parse_decimal_signed I
              (Some (Py.codes "123456789012345678901234567890"))
            = Ok 123456789012345678901234567890).
Proof.
  split; [|split; [|split; [|split]]].
  - intros I s.
    destruct (parse_cases I s) as [H|[H|[Hn (e & He & Hk)]]].
    + left. exact H.
    + right. left. exact H.
    + right. right. split; [exact Hn|]. now exists e.
  - intros I s v.
    destruct (parse_cases I s)
      as [(w & Hw & Hx & Hp)|[(w & Hw & Hx & Hp)|[Hn (e & He & _)]]].
    + rewrite Hp. split.
      * intros H. injection H as <-. now split.
      * intros [H _]. f_equal.
        exact (decimal_text_functional I _ _ _ Hw H).
    + rewrite Hp. split; [discriminate|]. intros [_ H]. congruence.
    + rewrite He. split; [discriminate|]. intros [H _]. now apply Hn in H.
  - intros I n. unfold Py.exceeds_limit.
    rewrite !andb_true_iff, !Z.ltb_lt. tauto.
  - intros I. repeat split; eexists; split; reflexivity.
  - intros I. repeat split; vm_compute; reflexivity.
Qed.

Lemma parser_language_witness :
  decimal_text sample_interp (Py.strip (Py.codes " +7 ")) 7.
Proof.
  apply (proj1 (proj1 (proj2 parser_language) sample_interp
                  (Py.codes " +7 ") 7)).
  vm_compute. reflexivity.
Defined.

(** C7. Flag equivalence: the saturated flag returned by
    [saturate_int32] equals the overflow flag returned by
    [detect_overflow]; it is 1 exactly when clamping altered the value
    and 0 otherwise; so the [overflow] and [saturated] fields of every
    result of [convert] are equal. *)
Theorem flag_equivalence :
  (forall v : Z,
      snd (saturate_int32 v) = detect_overflow v
      /\ (snd (saturate_int32 v) = 1 <-> fst (saturate_int32 v) <> v)
      /\ (snd (saturate_int32 v) = 0 <-> fst (saturate_int32 v) = v))
  /\ (forall (I : Py.Interp) (x : option Py.text) (fmt : Py.text)
             (p : bool) (r : Result),
         convert I x fmt p = Ok r -> saturated r = overflow r).
Proof.
  assert (Hflag : forall v, snd (saturate_int32 v) = detect_overflow v).
  { intros v. pose proof (saturate_cases v) as Hs.
    pose proof (detect_overflow_cases v) as Ho.
    unfold in_int32 in *.
    destruct Hs as [[Hv ->]|[[Hv ->]|[Hv ->]]];
      destruct Ho as [[Hr ->]|[Hr ->]]; cbn [snd]; try reflexivity; lia. }
  split.
  - intros v. split; [apply Hflag|].
    pose proof (saturate_cases v) as Hs.
    unfold in_int32, MIN_INT32, MAX_INT32 in Hs.
    destruct Hs as [[Hv ->]|[[Hv ->]|[Hv ->]]]; cbn [fst snd];
      unfold MIN_INT32, MAX_INT32; split; split; intros H;
      try reflexivity; try discriminate; try lia; try congruence.
  - intros I x fmt p r H.
    destruct (convert_ok I x fmt p r H) as (_ & Ho & Hs & _).
    rewrite Ho, Hs. apply Hflag.
Qed.

Lemma flag_equivalence_witness :
  exists r, convert sample_interp (Some (Py.codes "2147483648"))
              (Py.codes "DEC") false = Ok r
            /\ saturated r = overflow r.
Proof.
  eexists. split; [vm_compute; reflexivity|].
  apply (proj2 flag_equivalence sample_interp (Some (Py.codes "2147483648"))
           (Py.codes "DEC") false).
  vm_compute. reflexivity.
Defined.

(** C8. Output selection and hexadecimal format: for an input that
    parses, with [c] the clamped value and [b] its bit pattern, the
    [value_out] field of the result of [convert] is the decimal string of
    [c] under DEC, [b] under BIN and the hexadecimal string under HEX;
    the hexadecimal string is exactly 8 upper-case hexadecimal digits
    that denote [b] read as an unsigned integer (so left-padded with
    '0'), with the two characters "0x" in front if and only if the
    hex-prefix option is set. *)
Theorem output_selection
        (I : Py.Interp) (x : option Py.text) (v : Z) (p : bool) :
  parse_decimal_signed I x = Ok v ->
  let c := fst (saturate_int32 v) in
  let b := int32_to_bin32 c in
  exists h : string,
    String.length h = 8%nat
    /\ all_chars is_hex_upper_digit h = true
    /\ positional 16 h 0 = unsigned_of b
    /\ h = Py.replicate (8 - String.length (Py.digits 16 (unsigned_of b))) "0"
           ++ Py.digits 16 (unsigned_of b)
    /\ (exists r, convert I x (Py.codes "DEC") p = Ok r
                  /\ Py.str I c = Some (value_out r)
                  /\ value_out r = Py.repr c
                  /\ decimal_literal (value_out r) c)
    /\ (exists r, convert I x (Py.codes "BIN") p = Ok r
                  /\ value_out r = b /\ BitPattern32 (value_out r))
    /\ (exists r, convert I x (Py.codes "HEX") p = Ok r
                  /\ value_out r = (if p then String "0" (String "x" h) else h)
                  /\ hex8 r = value_out r).
Proof.
  intros Hp c b.
  pose proof (saturate_in_range v) as Hc. fold c in Hc.
  destruct (encoder_spec c Hc) as [Hb _]. fold b in Hb.
  pose proof (unsigned_of_bounds b Hb) as Hu.
  destruct (format_08X_spec _ Hu) as (Hl & Hx & Hval).
  exists (Py.format_08X (unsigned_of b)).
  split; [exact Hl|]. split; [exact Hx|]. split; [exact Hval|]. split.
  - unfold Py.format_08X, Py.format_zero_padded, Py.sign_of.
    destruct (Z.ltb_spec (unsigned_of b) 0) as [Hneg|_]; [lia|].
    rewrite Z.abs_eq by lia. cbn [append String.length].
    rewrite Nat.sub_0_r. reflexivity.
  - split; [|split].
    + eexists. split.
      * rewrite (convert_parsed I x v (Py.codes "DEC") p Hp). reflexivity.
      * cbn [value_out]. split; [apply (str_int32 I c Hc)|].
        split; [reflexivity | apply repr_decimal_literal].
    + eexists. split.
      * rewrite (convert_parsed I x v (Py.codes "BIN") p Hp). reflexivity.
      * cbn [value_out]. split; [reflexivity | exact Hb].
    + eexists. split.
      * rewrite (convert_parsed I x v (Py.codes "HEX") p Hp). reflexivity.
      * cbn [value_out hex8]. split; [|reflexivity].
        destruct p; reflexivity.
Qed.

Lemma output_selection_witness :
  exists h : string,
    String.length h = 8%nat
    /\ exists r, convert sample_interp (Some (Py.codes "-123"))
                   (Py.codes "HEX") true = Ok r
                 /\ value_out r = String "0" (String "x" h).
Proof.
  destruct (output_selection sample_interp (Some (Py.codes "-123")) (-123)
              true ltac:(vm_compute; reflexivity))
    as (h & Hl & _ & _ & _ & _ & _ & r & Hr & Hv & _).
  exists h. split; [exact Hl|]. exists r. split; [exact Hr | exact Hv].
Defined.

(** C9. MalformedBitPattern is unreachable within the pipeline: for
    every clamped value [v] of [-2^31, 2^31-1], [int32_to_bin32 v] is
    exactly 32 characters long and every character is '0' or '1', so
    [bin32_to_hex8] and [bin32_to_int32] pass their guard on it and
    return; and no call of [convert] fails with MalformedBitPattern. *)
Theorem malformed_bit_pattern_unreachable :
  (forall v : Z,
      - 2 ^ 31 <= v <= 2 ^ 31 - 1 ->
      String.length (int32_to_bin32 v) = 32%nat
      /\ all_chars is_bit (int32_to_bin32 v) = true
      /\ not_bin32 (int32_to_bin32 v) = false
      /\ (forall p : bool, exists h, bin32_to_hex8 (int32_to_bin32 v) p = Ok h)
      /\ (exists w, bin32_to_int32 (int32_to_bin32 v) = Ok w))
  /\ (forall (I : Py.Interp) (x : option Py.text) (fmt : Py.text) (p : bool),
         ~ fails_with (convert I x fmt p) MalformedBitPattern
         /\ convert I x fmt p <> Raise Bin32_must_be_32_characters_of_0_1
         /\ forall base s,
             convert I x fmt p <> Raise (Invalid_literal_for_int base s)).
Proof.
  split.
  - intros v Hv. apply (proj2 (in_int32_bounds v)) in Hv.
    destruct (encoder_spec v Hv) as [Hb _].
    split; [apply Hb|]. split; [apply Hb|].
    split; [now apply not_bin32_false|]. split.
    + intros p. rewrite (renderer_spec _ p Hb). eexists. reflexivity.
    + exists v. now apply decode_encode.
  - intros I x fmt p.
    assert (Hkind : forall e, convert I x fmt p = Raise e ->
                              kind_of e = Some InvalidFormat
                              \/ kind_of e = Some UnknownFormatSelector
                              \/ e = Exceeds_the_limit_for_integer_string_conversion).
    { intros e He. destruct (parse_decimal_signed I x) as [v|e'] eqn:Hp.
      - rewrite (convert_parsed I x v fmt p Hp) in He. cbv zeta in He.
        destruct (Py.eqb fmt (Py.codes "DEC"));
          [|destruct (Py.eqb fmt (Py.codes "BIN"));
            [|destruct (Py.eqb fmt (Py.codes "HEX"))]];
          cbn [bind] in He; try discriminate.
        injection He as <-. right. left. reflexivity.
      - rewrite (convert_unparsed I x e' fmt p Hp) in He. injection He as <-.
        destruct (parse_raise_kind I x e' Hp) as [Hk|Hk]; auto. }
    split; [|split].
    + intros (e & He & Hk). destruct (Hkind e He) as [H|[H|H]];
        [congruence | congruence | subst e; discriminate].
    + intros He. destruct (Hkind _ He) as [H|[H|H]]; discriminate.
    + intros base s He. destruct (Hkind _ He) as [H|[H|H]]; discriminate.
Qed.

Lemma malformed_bit_pattern_unreachable_witness :
  not_bin32 (int32_to_bin32 (- 2 ^ 31)) = false
  /\ exists w, bin32_to_int32 (int32_to_bin32 (- 2 ^ 31)) = Ok w.
Proof.
  pose proof (proj1 malformed_bit_pattern_unreachable (- 2 ^ 31) ltac:(lia))
    as (_ & _ & Hg & _ & Hd).
  split; [exact Hg | exact Hd].
Defined.

(** C10. Decoder range invariant: for every 32-character string [b] of
    '0'/'1', [bin32_to_int32 b] returns, and the value it returns lies in
    [-2^31, 2^31-1]: it is the unsigned number [b] denotes when the first
    character is '0', and that number minus 2^32 otherwise. *)
Theorem decoder_range_invariant (b : string) :
  String.length b = 32%nat -> all_chars is_bit b = true ->
  exists v : Z,
    bin32_to_int32 b = Ok v
    /\ - 2 ^ 31 <= v <= 2 ^ 31 - 1
    /\ (v = unsigned_of b \/ v = unsigned_of b - 2 ^ 32).
Proof.
  intros Hl Hb.
  destruct (decoder_range b (conj Hl Hb)) as (v & Hdec & Hv).
  exists v. split; [exact Hdec|].
  split; [now apply in_int32_bounds|].
  rewrite (decoder_spec b (conj Hl Hb)) in Hdec.
  destruct (unsigned_of b <? 2 ^ 31); [left | right]; congruence.
Qed.

Lemma decoder_range_invariant_witness :
  exists v : Z,
    bin32_to_int32 "10000000000000000000000000000000" = Ok v
    /\ - 2 ^ 31 <= v <= 2 ^ 31 - 1
    /\ (v = unsigned_of "10000000000000000000000000000000"
        \/ v = unsigned_of "10000000000000000000000000000000" - 2 ^ 32).
Proof.
  apply (decoder_range_invariant "10000000000000000000000000000000");
    reflexivity.
Defined.

(* ================================================================== *)
(** * Part IV: further properties of the code *)
(* ================================================================== *)

(** ** Trimming *)
Section Trimming.

Local Open Scope list_scope.

Lemma lstrip_spaces (l : Py.text) :
  forallb Py.isspace l = true -> Py.lstrip l = [].
Proof.
  induction l as [|c l IH]; simpl; [reflexivity|].
  intros H. apply andb_true_iff in H as [Hc Hl]. rewrite Hc. now apply IH.
Qed.

Lemma lstrip_space_prefix (l t : Py.text) :
  forallb Py.isspace l = true -> Py.lstrip (l ++ t) = Py.lstrip t.
Proof.
  induction l as [|c l IH]; simpl; [reflexivity|].
  intros H. apply andb_true_iff in H as [Hc Hl]. rewrite Hc. now apply IH.
Qed.

Lemma rstrip_spaces (r : Py.text) :
  forallb Py.isspace r = true -> Py.rstrip r = [].
Proof.
  induction r as [|c r IH]; simpl; [reflexivity|].
  intros H. apply andb_true_iff in H as [Hc Hr].
  rewrite (IH Hr), Hc. reflexivity.
Qed.

Lemma rstrip_space_suffix (t r : Py.text) :
  forallb Py.isspace r = true -> Py.rstrip (t ++ r) = Py.rstrip t.
Proof.
  intros Hr. induction t as [|c t IH].
  - simpl. now apply rstrip_spaces.
  - cbn [app Py.rstrip]. now rewrite IH.
Qed.

Lemma strip_space_suffix (s r : Py.text) :
  forallb Py.isspace r = true -> Py.strip (s ++ r) = Py.strip s.
Proof.
  intros Hr. unfold Py.strip. induction s as [|c s IH].
  - simpl. rewrite (lstrip_spaces r Hr). reflexivity.
  - cbn [app Py.lstrip]. destruct (Py.isspace c).
    + exact IH.
    + change (c :: (s ++ r))%list with ((c :: s) ++ r)%list.
      now apply rstrip_space_suffix.
Qed.

Lemma strip_padding (l s r : Py.text) :
  forallb Py.isspace l = true -> forallb Py.isspace r = true ->
  Py.strip (l ++ s ++ r) = Py.strip s.
Proof.
  intros Hl Hr. unfold Py.strip at 1.
  rewrite (lstrip_space_prefix l _ Hl).
  now apply strip_space_suffix.
Qed.

Lemma rstrip_idempotent (t : Py.text) : Py.rstrip (Py.rstrip t) = Py.rstrip t.
Proof.
  induction t as [|c t IH]; [reflexivity|].
  cbn [Py.rstrip]. destruct (Py.rstrip t) as [|d r] eqn:Ht.
  - destruct (Py.isspace c) eqn:Hc; [reflexivity|].
    cbn [Py.rstrip]. now rewrite Hc.
  - cbn [Py.rstrip] in *. rewrite IH. reflexivity.
Qed.

(** A string that does not start with white space keeps its first
    character, hence its left edge, when trimmed on the right. *)
Lemma lstrip_rstrip_lstrip (s : Py.text) :
  Py.lstrip (Py.rstrip (Py.lstrip s)) = Py.rstrip (Py.lstrip s).
Proof.
  induction s as [|c s IH]; [reflexivity|].
  cbn [Py.lstrip]. destruct (Py.isspace c) eqn:Hc; [exact IH|].
  cbn [Py.rstrip]. destruct (Py.rstrip s) as [|d r].
  - rewrite Hc. cbn [Py.lstrip]. now rewrite Hc.
  - cbn [Py.lstrip]. now rewrite Hc.
Qed.

Lemma strip_idempotent (s : Py.text) : Py.strip (Py.strip s) = Py.strip s.
Proof.
  unfold Py.strip. rewrite lstrip_rstrip_lstrip. apply rstrip_idempotent.
Qed.

Lemma lstrip_no_space (s : Py.text) :
  forallb (fun c => negb (Py.isspace c)) s = true -> Py.lstrip s = s.
Proof.
  destruct s as [|c s]; simpl; [reflexivity|].
  intros H. apply andb_true_iff in H as [Hc _].
  apply negb_true_iff in Hc. now rewrite Hc.
Qed.

Lemma rstrip_no_space (s : Py.text) :
  forallb (fun c => negb (Py.isspace c)) s = true -> Py.rstrip s = s.
Proof.
  induction s as [|c s IH]; simpl; [reflexivity|].
  intros H. apply andb_true_iff in H as [Hc Hs].
  apply negb_true_iff in Hc. rewrite (IH Hs).
  destruct s; [now rewrite Hc | reflexivity].
Qed.

Lemma strip_no_space (s : Py.text) :
  forallb (fun c => negb (Py.isspace c)) s = true -> Py.strip s = s.
Proof.
  intros H. unfold Py.strip. rewrite (lstrip_no_space s H).
  now apply rstrip_no_space.
Qed.

End Trimming.

(** ** The numerals the program prints, as text *)
Section Numerals.

Variable I : Py.Interp.

Lemma append_eq_empty (s t : string) :
  s ++ t = EmptyString -> s = EmptyString /\ t = EmptyString.
Proof. destruct s; simpl; [auto | discriminate]. Qed.

Lemma codes_String (c : ascii) (s : string) :
  Py.codes (String c s) = Py.ord c :: Py.codes s.
Proof. reflexivity. Qed.

Lemma length_codes (s : string) :
  List.length (Py.codes s) = String.length s.
Proof. induction s as [|c s IH]; simpl; [reflexivity | now rewrite <- IH]. Qed.

Lemma decimal_of_digit (c : ascii) :
  is_decimal_digit c = true -> Py.decimal I (Py.ord c) = Some (char_digit c).
Proof.
  intros H. pose proof (is_decimal_digit_digit c H) as Hd.
  apply is_decimal_digit_ord in H. unfold Py.decimal, Py.is_ascii, char_digit.
  destruct (Z.leb_spec 0 (Py.ord c)); [|lia].
  destruct (Z.ltb_spec (Py.ord c) 128); [|lia]. cbn [andb].
  destruct (Z.leb_spec 48 (Py.ord c)); [|lia].
  destruct (Z.leb_spec (Py.ord c) 57); [|lia]. cbn [andb].
  destruct (Z.ltb_spec (Py.ord c) 58); [reflexivity | lia].
Qed.

Lemma ascii_digit_not_space (c : Z) :
  48 <= c <= 57 -> Py.isspace c = false.
Proof.
  intros Hc. unfold Py.isspace.
  repeat match goal with
         | |- context [?a <=? ?b] => destruct (Z.leb_spec a b); try lia
         | |- context [?a =? ?b] => destruct (Z.eqb_spec a b); try lia
         end;
    try reflexivity.
Qed.

Lemma digits_as_text (ds : string) :
  all_chars is_decimal_digit ds = true ->
  forallb (Re.decimal_class I) (Py.codes ds) = true
  /\ forallb (fun c => negb (Py.isspace c)) (Py.codes ds) = true
  /\ forall acc, number_of I (Py.codes ds) acc = positional 10 ds acc.
Proof.
  induction ds as [|c ds IH]; [repeat split|].
  cbn [all_chars]. intros H. apply andb_true_iff in H as [Hc Hds].
  destruct (IH Hds) as (IH1 & IH2 & IH3).
  rewrite codes_String. cbn [forallb number_of positional].
  rewrite IH1, IH2.
  assert (Hdc : Re.decimal_class I (Py.ord c) = true)
    by (unfold Re.decimal_class; now rewrite (decimal_of_digit c Hc)).
  assert (Hdo : digit_of I (Py.ord c) = char_digit c)
    by (unfold digit_of; now rewrite (decimal_of_digit c Hc)).
  rewrite Hdc, Hdo. apply is_decimal_digit_ord in Hc.
  split; [reflexivity|]. split.
  - rewrite andb_true_r. apply negb_true_iff.
    now apply ascii_digit_not_space.
  - intros acc. apply IH3.
Qed.

Lemma codes_nonempty (s : string) : s <> EmptyString -> Py.codes s <> [].
Proof. destruct s; [contradiction | discriminate]. Qed.

(** A numeral of the program is, as text, a literal of the parser's
    grammar for the same number, with no white space and as many digits
    as it has digit characters. *)
Lemma literal_as_text (s : string) (v : Z) :
  decimal_literal s v ->
  decimal_text I (Py.codes s) v /\ Py.strip (Py.codes s) = Py.codes s.
Proof.
  intros H. destruct H as [ds Hne Hds|ds Hne Hds|ds Hne Hds];
    destruct (digits_as_text ds Hds) as (H1 & H2 & H3).
  - split.
    + rewrite <- (H3 0). apply text_unsigned; [now apply codes_nonempty | exact H1].
    + now apply strip_no_space.
  - rewrite codes_String. change (Py.ord "+") with 43. split.
    + rewrite <- (H3 0). apply text_plus; [now apply codes_nonempty | exact H1].
    + apply strip_no_space. cbn [forallb]. now rewrite H2.
  - rewrite codes_String. change (Py.ord "-") with 45. split.
    + rewrite <- (H3 0). apply text_minus; [now apply codes_nonempty | exact H1].
    + apply strip_no_space. cbn [forallb]. now rewrite H2.
Qed.

Lemma digit_count_digits (ds : string) :
  ds <> EmptyString -> all_chars is_decimal_digit ds = true ->
  digit_count (Py.codes ds) = Z.of_nat (String.length ds)
  /\ digit_count (Py.codes (String "+" ds)) = Z.of_nat (String.length ds)
  /\ digit_count (Py.codes (String "-" ds)) = Z.of_nat (String.length ds).
Proof.
  intros Hne Hds. rewrite !codes_String.
  change (Py.ord "+") with 43. change (Py.ord "-") with 45.
  cbn [digit_count Re.sign_class Z.eqb Pos.eqb orb]. rewrite length_codes.
  split; [|split; reflexivity].
  destruct ds as [|c r]; [contradiction|].
  rewrite codes_String. cbn [digit_count].
  assert (Hc : is_decimal_digit c = true)
    by (simpl in Hds; now apply andb_true_iff in Hds).
  apply is_decimal_digit_ord in Hc. unfold Re.sign_class.
  destruct (Z.eqb_spec (Py.ord c) 43); [lia|].
  destruct (Z.eqb_spec (Py.ord c) 45); [lia|].
  cbn [orb List.length String.length]. now rewrite length_codes.
Qed.

(** The parser on a numeral of the program: the number it denotes,
    unless its digits exceed the limit. *)
Lemma parse_literal (s : string) (v : Z) :
  decimal_literal s v ->
  parse_decimal_signed I (Some (Py.codes s))
  = if Py.exceeds_limit I (digit_count (Py.codes s))
    then Raise Exceeds_the_limit_for_integer_string_conversion
    else Ok v.
Proof.
  intros H. destruct (literal_as_text s v H) as [Ht Hs].
  destruct (parse_cases I (Py.codes s))
    as [(w & Hw & Hx & Hp)|[(w & Hw & Hx & Hp)|[Hn _]]];
    rewrite Hs in *.
  - rewrite Hx, Hp. f_equal. exact (decimal_text_functional I _ _ _ Hw Ht).
  - now rewrite Hx, Hp.
  - now apply Hn in Ht.
Qed.

Lemma digit_count_repr (v : Z) :
  digit_count (Py.codes (Py.repr v))
  = Z.of_nat (String.length (Py.digits 10 (Z.abs v))).
Proof.
  assert (Hd : all_chars is_decimal_digit (Py.digits 10 (Z.abs v)) = true)
    by (apply (digits_chars 10 ltac:(lia)), digit_char_decimal).
  assert (Hne : Py.digits 10 (Z.abs v) <> EmptyString)
    by (apply (digits_nonempty 10)).
  destruct (digit_count_digits _ Hne Hd) as (H1 & _ & H3).
  unfold Py.repr, Py.sign_of. destruct (v <? 0); [exact H3 | exact H1].
Qed.

(** Parsing what [str] prints. *)
Lemma parse_repr (v : Z) :
  parse_decimal_signed I (Some (Py.codes (Py.repr v)))
  = match Py.str I v with
    | Some _ => Ok v
    | None => Raise Exceeds_the_limit_for_integer_string_conversion
    end.
Proof.
  rewrite (parse_literal _ v (repr_decimal_literal v)), digit_count_repr.
  unfold Py.str.
  now destruct (Py.exceeds_limit I
                  (Z.of_nat (String.length (Py.digits 10 (Z.abs v))))).
Qed.

End Numerals.

(** ** More on the parser *)
Section ParserMore.

Lemma parse_depends_on_strip (I : Py.Interp) (s t : Py.text) :
  Py.strip s = Py.strip t ->
  parse_decimal_signed I (Some s) = parse_decimal_signed I (Some t).
Proof. intros H. unfold parse_decimal_signed. now rewrite H. Qed.

(** X1. White space around the text is ignored by the parser, outcome
    and error message included: padding a string with white space on
    both sides, or trimming it beforehand, changes nothing. *)
Theorem parse_ignores_surrounding_space
        (I : Py.Interp) (l s r : Py.text) :
  forallb Py.isspace l = true -> forallb Py.isspace r = true ->
  parse_decimal_signed I (Some (l ++ s ++ r)%list)
  = parse_decimal_signed I (Some s)
  /\ parse_decimal_signed I (Some (Py.strip s))
     = parse_decimal_signed I (Some s).
Proof.
  intros Hl Hr. split; apply parse_depends_on_strip.
  - now apply strip_padding.
  - apply strip_idempotent.
Qed.

Lemma parse_ignores_surrounding_space_witness :
  parse_decimal_signed sample_interp
    (Some ([9; 12288] ++ Py.codes "-42" ++ [10; 8195])%list)
  = parse_decimal_signed sample_interp (Some (Py.codes "-42")).
Proof.
  apply (proj1 (parse_ignores_surrounding_space sample_interp
                  [9; 12288] (Py.codes "-42") [10; 8195]
                  eq_refl eq_refl)).
Defined.

(** X2. Leading zeros and an explicit '+' do not change the parsed
    value, and '-' negates it, as long as the digits are within the
    interpreter's limit: for a non-empty string [ds] of '0'..'9' with
    [k] zeros in front, [n] digits in all, the unsigned and the '+'
    forms parse to the number [ds] denotes and the '-' form to its
    opposite when [n] does not exceed the limit; when it does, the
    three forms raise the error of the builtin [int] (the zeros
    count). *)
Theorem parse_leading_zeros (I : Py.Interp) (k : nat) (ds : string) :
  ds <> EmptyString -> all_chars is_decimal_digit ds = true ->
  let zs := Py.replicate k "0" ++ ds in
  let n := Z.of_nat (k + String.length ds) in
  (Py.exceeds_limit I n = false ->
   parse_decimal_signed I (Some (Py.codes zs)) = Ok (positional 10 ds 0)
   /\ parse_decimal_signed I (Some (Py.codes (String "+" zs)))
      = Ok (positional 10 ds 0)
   /\ parse_decimal_signed I (Some (Py.codes (String "-" zs)))
      = Ok (- positional 10 ds 0))
  /\ (Py.exceeds_limit I n = true ->
      parse_decimal_signed I (Some (Py.codes zs))
      = Raise Exceeds_the_limit_for_integer_string_conversion
      /\ parse_decimal_signed I (Some (Py.codes (String "+" zs)))
         = Raise Exceeds_the_limit_for_integer_string_conversion
      /\ parse_decimal_signed I (Some (Py.codes (String "-" zs)))
         = Raise Exceeds_the_limit_for_integer_string_conversion).
Proof.
  intros Hne Hds zs n.
  assert (Hz : all_chars is_decimal_digit zs = true).
  { subst zs. rewrite all_chars_append, Hds, all_chars_replicate; reflexivity. }
  assert (Hnz : zs <> EmptyString).
  { subst zs. intros H. apply append_eq_empty in H as [_ H]. contradiction. }
  assert (Hv : positional 10 zs 0 = positional 10 ds 0).
  { subst zs. now rewrite positional_append, positional_replicate_zero. }
  assert (Hlen : Z.of_nat (String.length zs) = n).
  { subst zs n. now rewrite length_append, length_replicate. }
  destruct (digit_count_digits zs Hnz Hz) as (C1 & C2 & C3).
  rewrite Hlen in C1, C2, C3.
  pose proof (parse_literal I zs _ (lit_unsigned zs Hnz Hz)) as P1.
  pose proof (parse_literal I _ _ (lit_plus zs Hnz Hz)) as P2.
  pose proof (parse_literal I _ _ (lit_minus zs Hnz Hz)) as P3.
  rewrite C1, Hv in P1. rewrite C2, Hv in P2. rewrite C3, Hv in P3.
  split; intros Hx; rewrite Hx in P1, P2, P3; auto.
Qed.

Lemma parse_leading_zeros_witness :
  parse_decimal_signed sample_interp (Some (Py.codes "-007")) = Ok (-7).
Proof.
  apply (proj1 (parse_leading_zeros sample_interp 2 "7"
                  ltac:(discriminate) eq_refl) eq_refl).
Defined.

(** X3. Printing then parsing is the identity wherever [str] prints:
    when [str v] returns [s], [parse_decimal_signed s] returns [v]; it
    does so for every [v] of fewer than 640 digits whatever the limit,
    and where [str v] raises the digit limit, so does parsing the
    numeral of [v]. *)
Theorem parse_str_roundtrip (I : Py.Interp) (v : Z) :
  (forall s, Py.str I v = Some s ->
             parse_decimal_signed I (Some (Py.codes s)) = Ok v)
  /\ (Z.abs v < 10 ^ 640 ->
      Py.str I v = Some (Py.repr v)
      /\ parse_decimal_signed I (Some (Py.codes (Py.repr v))) = Ok v)
  /\ (Py.str I v = None ->
      parse_decimal_signed I (Some (Py.codes (Py.repr v)))
      = Raise Exceeds_the_limit_for_integer_string_conversion).
Proof.
  pose proof (parse_repr I v) as Hp.
  split; [|split].
  - intros s Hs. rewrite Hs in Hp.
    unfold Py.str in Hs.
    destruct (Py.exceeds_limit I _); [discriminate|].
    injection Hs as <-. exact Hp.
  - intros Hv. pose proof (str_small I v Hv) as Hs.
    split; [exact Hs|]. now rewrite Hs in Hp.
  - intros Hs. now rewrite Hs in Hp.
Qed.

Lemma parse_str_roundtrip_witness :
  Py.str sample_interp (-4000000000) = Some (Py.repr (-4000000000))
  /\ parse_decimal_signed sample_interp
       (Some (Py.codes (Py.repr (-4000000000)))) = Ok (-4000000000).
Proof.
  apply (proj1 (proj2 (parse_str_roundtrip sample_interp (-4000000000)))).
  vm_compute. reflexivity.
Defined.

(** With the limit switched off the literal of 4301 digits parses. *)
Example parse_without_limit :
  exists v, parse_decimal_signed unlimited_interp (Some (repeat 49 4301))
            = Ok v.
Proof. eexists. vm_compute. reflexivity. Qed.

End ParserMore.

(** ** More on classification and saturation *)
Section RangeMore.

Lemma saturate_fixed (v : Z) :
  in_int32 v -> saturate_int32 v = (v, 0).
Proof.
  intros Hv. unfold in_int32 in Hv.
  destruct (saturate_cases v) as [[H _]|[[H _]|[_ H]]];
    [lia | lia | exact H].
Qed.

Lemma detect_overflow_in_range (v : Z) :
  in_int32 v -> detect_overflow v = 0.
Proof.
  intros Hv. unfold in_int32 in Hv.
  destruct (detect_overflow_cases v) as [[_ H]|[H _]]; [exact H | lia].
Qed.

(** X4. Saturation is idempotent and order preserving: a saturated
    value is in [-2^31, 2^31-1], saturating it again returns it with the
    flag 0, and [v <= w] implies that the saturated [v] is at most the
    saturated [w]. *)
Theorem saturate_idempotent_monotone (v w : Z) :
  - 2 ^ 31 <= fst (saturate_int32 v) <= 2 ^ 31 - 1
  /\ saturate_int32 (fst (saturate_int32 v)) = (fst (saturate_int32 v), 0)
  /\ detect_overflow (fst (saturate_int32 v)) = 0
  /\ (v <= w -> fst (saturate_int32 v) <= fst (saturate_int32 w)).
Proof.
  pose proof (saturate_in_range v) as Hv.
  split; [now apply in_int32_bounds|].
  split; [now apply saturate_fixed|].
  split; [now apply detect_overflow_in_range|].
  intros Hle.
  pose proof (saturate_cases v) as Cv. pose proof (saturate_cases w) as Cw.
  unfold in_int32, MIN_INT32, MAX_INT32 in Cv, Cw.
  destruct Cv as [[Hv1 ->]|[[Hv1 ->]|[Hv1 ->]]];
    destruct Cw as [[Hw1 ->]|[[Hw1 ->]|[Hw1 ->]]];
    cbn [fst]; unfold MIN_INT32, MAX_INT32; lia.
Qed.

Lemma saturate_idempotent_monotone_witness :
  fst (saturate_int32 (- 2 ^ 40)) <= fst (saturate_int32 17).
Proof.
  apply (proj2 (proj2 (proj2 (saturate_idempotent_monotone (- 2 ^ 40) 17)))).
  lia.
Defined.

End RangeMore.

(** ** More on the pipeline *)
Section PipelineMore.

Lemma convert_valid (I : Py.Interp)
      (x : option Py.text) (v : Z) (fmt : Py.text) (p : bool) :
  parse_decimal_signed I x = Ok v ->
  fmt = Py.codes "DEC" \/ fmt = Py.codes "BIN" \/ fmt = Py.codes "HEX" ->
  exists r, convert I x fmt p = Ok r.
Proof.
  intros Hp Hf. rewrite (convert_parsed I x v fmt p Hp). cbv zeta.
  destruct Hf as [->|[->| ->]]; eexists; reflexivity.
Qed.

(** X5. [convert] returns a result exactly when the text parses and the
    selector is DEC, BIN or HEX; an out-of-range value is never an
    error. *)
Theorem convert_succeeds_iff
        (I : Py.Interp) (x : option Py.text) (fmt : Py.text) (p : bool) :
  (exists r, convert I x fmt p = Ok r)
  <-> (exists v, parse_decimal_signed I x = Ok v)
      /\ (fmt = Py.codes "DEC" \/ fmt = Py.codes "BIN"
          \/ fmt = Py.codes "HEX").
Proof.
  split.
  - intros [r Hr]. destruct (convert_ok I x fmt p r Hr) as (Hp & _).
    split; [now exists (x_input r)|].
    rewrite (convert_parsed I x _ fmt p Hp) in Hr. cbv zeta in Hr.
    destruct (Py.eqb fmt (Py.codes "DEC")) eqn:Ed;
      [apply eqb_eq in Ed; now left|].
    destruct (Py.eqb fmt (Py.codes "BIN")) eqn:Eb;
      [apply eqb_eq in Eb; right; now left|].
    destruct (Py.eqb fmt (Py.codes "HEX")) eqn:Eh;
      [apply eqb_eq in Eh; right; now right|].
    discriminate.
  - intros [[v Hv] Hf]. now apply (convert_valid I x v).
Qed.

Lemma convert_succeeds_iff_witness :
  exists r, convert sample_interp (Some (Py.codes "99999999999999999999"))
              (Py.codes "BIN") false = Ok r.
Proof.
  apply (proj2 (convert_succeeds_iff sample_interp
                  (Some (Py.codes "99999999999999999999"))
                  (Py.codes "BIN") false)).
  split; [eexists; vm_compute; reflexivity | right; left; reflexivity].
Defined.

(** X6. Invariants of a result of [convert]: the clamped value is in
    [-2^31, 2^31-1]; the bit pattern is 32 characters '0'/'1' and decodes
    to the clamped value; both flags are 0 or 1, and are 0 exactly when
    the clamped value is the parsed one; the [hex8] field is the
    rendering of the [bin32] field. *)
Theorem convert_result_invariants
        (I : Py.Interp) (x : option Py.text) (fmt : Py.text) (p : bool)
        (r : Result) :
  convert I x fmt p = Ok r ->
  - 2 ^ 31 <= x_sat r <= 2 ^ 31 - 1
  /\ BitPattern32 (bin32 r)
  /\ bin32_to_int32 (bin32 r) = Ok (x_sat r)
  /\ bin32_to_hex8 (bin32 r) p = Ok (hex8 r)
  /\ (overflow r = 0 \/ overflow r = 1)
  /\ (overflow r = 0 <-> x_sat r = x_input r)
  /\ saturated r = overflow r.
Proof.
  intros H. destruct (parse_decimal_signed I x) as [v|e] eqn:Hp.
  2:{ rewrite (convert_unparsed I x e fmt p Hp) in H. discriminate. }
  rewrite (convert_parsed I x v fmt p Hp) in H. cbv zeta in H.
  pose proof (saturate_in_range v) as Hc.
  destruct (encoder_spec _ Hc) as [Hb _].
  assert (Hflags : (detect_overflow v = 0 \/ detect_overflow v = 1)
                   /\ (detect_overflow v = 0 <-> fst (saturate_int32 v) = v)
                   /\ snd (saturate_int32 v) = detect_overflow v).
  { pose proof (saturate_cases v) as Cs.
    pose proof (detect_overflow_cases v) as Co.
    unfold in_int32, MIN_INT32, MAX_INT32 in Cs, Co.
    destruct Cs as [[Hs ->]|[[Hs ->]|[Hs ->]]];
      destruct Co as [[Ho ->]|[Ho ->]]; cbn [fst snd];
      unfold MIN_INT32, MAX_INT32;
      repeat split; try (now left); try (now right);
      intros; try lia; try discriminate. }
  assert (Hr : exists out,
             r = mkResult out (detect_overflow v) (snd (saturate_int32 v)) v
                   (fst (saturate_int32 v))
                   (int32_to_bin32 (fst (saturate_int32 v)))
                   (if p
                    then "0x" ++ Py.format_08X
                           (unsigned_of (int32_to_bin32 (fst (saturate_int32 v))))
                    else Py.format_08X
                           (unsigned_of (int32_to_bin32 (fst (saturate_int32 v)))))).
  { destruct (Py.eqb fmt (Py.codes "DEC"));
      [|destruct (Py.eqb fmt (Py.codes "BIN"));
        [|destruct (Py.eqb fmt (Py.codes "HEX"))]];
      cbn [bind] in H; try discriminate;
      injection H as <-; eexists; reflexivity. }
  destruct Hr as [out ->]. cbn [x_sat bin32 hex8 overflow saturated x_input].
  destruct Hflags as (Hf1 & Hf2 & Hf3).
  split; [now apply in_int32_bounds|].
  split; [exact Hb|].
  split; [now apply decode_encode|].
  split; [now apply renderer_spec|].
  split; [exact Hf1|]. split; [exact Hf2 | exact Hf3].
Qed.

Lemma convert_result_invariants_witness :
  exists r, convert sample_interp (Some (Py.codes "-2147483649"))
              (Py.codes "HEX") true = Ok r
            /\ bin32_to_int32 (bin32 r) = Ok (x_sat r).
Proof.
  eexists. split; [vm_compute; reflexivity|].
  apply (convert_result_invariants sample_interp
           (Some (Py.codes "-2147483649")) (Py.codes "HEX") true).
  vm_compute. reflexivity.
Defined.

(** X7. The selector only chooses [value_out]: two results of [convert]
    on the same text and hex-prefix option, under any two selectors,
    agree on the flags, the parsed and clamped values, the bit pattern
    and the hexadecimal string; and [value_out] is always one of
    [str x_sat], [bin32] and [hex8]. *)
Theorem convert_selector_independence
        (I : Py.Interp) (x : option Py.text) (f1 f2 : Py.text) (p : bool)
        (r1 r2 : Result) :
  convert I x f1 p = Ok r1 -> convert I x f2 p = Ok r2 ->
  overflow r1 = overflow r2 /\ saturated r1 = saturated r2
  /\ x_input r1 = x_input r2 /\ x_sat r1 = x_sat r2
  /\ bin32 r1 = bin32 r2 /\ hex8 r1 = hex8 r2
  /\ (Py.str I (x_sat r1) = Some (value_out r1) \/ value_out r1 = bin32 r1
      \/ value_out r1 = hex8 r1).
Proof.
  intros H1 H2. destruct (parse_decimal_signed I x) as [v|e] eqn:Hp.
  2:{ rewrite (convert_unparsed I x e f1 p Hp) in H1. discriminate. }
  rewrite (convert_parsed I x v f1 p Hp) in H1.
  rewrite (convert_parsed I x v f2 p Hp) in H2. cbv zeta in H1, H2.
  pose proof (str_int32 I _ (saturate_in_range v)) as Hstr.
  destruct (Py.eqb f1 (Py.codes "DEC"));
    [|destruct (Py.eqb f1 (Py.codes "BIN"));
      [|destruct (Py.eqb f1 (Py.codes "HEX"))]];
    cbn [bind] in H1; try discriminate; injection H1 as <-;
    (destruct (Py.eqb f2 (Py.codes "DEC"));
     [|destruct (Py.eqb f2 (Py.codes "BIN"));
       [|destruct (Py.eqb f2 (Py.codes "HEX"))]];
     cbn [bind] in H2; try discriminate; injection H2 as <-);
    cbn [overflow saturated x_input x_sat bin32 hex8 value_out];
    repeat split; auto.
Qed.

Lemma convert_selector_independence_witness :
  exists r1 r2,
    convert sample_interp (Some (Py.codes "-5")) (Py.codes "DEC") false = Ok r1
    /\ convert sample_interp (Some (Py.codes "-5")) (Py.codes "HEX") false
       = Ok r2
    /\ bin32 r1 = bin32 r2 /\ hex8 r1 = hex8 r2.
Proof.
  destruct (convert sample_interp (Some (Py.codes "-5")) (Py.codes "DEC") false)
    as [r1|e1] eqn:H1; [|vm_compute in H1; discriminate].
  destruct (convert sample_interp (Some (Py.codes "-5")) (Py.codes "HEX") false)
    as [r2|e2] eqn:H2; [|vm_compute in H2; discriminate].
  exists r1, r2. split; [reflexivity|]. split; [reflexivity|].
  destruct (convert_selector_independence sample_interp
              (Some (Py.codes "-5")) (Py.codes "DEC") (Py.codes "HEX") false
              r1 r2 H1 H2) as (_ & _ & _ & _ & Hb & Hh & _).
  split; [exact Hb | exact Hh].
Defined.

(** X8. Feeding the decimal rendering of the clamped value back into
    [convert] reproduces the result with the flags cleared: the same
    [value_out], clamped value, bit pattern and hexadecimal string, the
    clamped value as parsed input, and both flags 0. *)
Theorem convert_idempotent
        (I : Py.Interp) (x : option Py.text) (fmt : Py.text) (p : bool)
        (r : Result) :
  convert I x fmt p = Ok r ->
  Py.str I (x_sat r) = Some (Py.repr (x_sat r))
  /\ convert I (Some (Py.codes (Py.repr (x_sat r)))) fmt p
     = Ok (mkResult (value_out r) 0 0 (x_sat r) (x_sat r) (bin32 r) (hex8 r)).
Proof.
  intros H. destruct (parse_decimal_signed I x) as [v|e] eqn:Hp.
  2:{ rewrite (convert_unparsed I x e fmt p Hp) in H. discriminate. }
  rewrite (convert_parsed I x v fmt p Hp) in H. cbv zeta in H.
  pose proof (saturate_in_range v) as Hc.
  pose proof (str_int32 I _ Hc) as Hstr.
  assert (Hparse : parse_decimal_signed I
                     (Some (Py.codes (Py.repr (fst (saturate_int32 v)))))
                   = Ok (fst (saturate_int32 v))).
  { rewrite parse_repr. now rewrite Hstr. }
  assert (Hgoal : forall out,
             (if Py.eqb fmt (Py.codes "DEC")
              then Ok (Py.repr (fst (saturate_int32 v)))
              else if Py.eqb fmt (Py.codes "BIN")
                   then Ok (int32_to_bin32 (fst (saturate_int32 v)))
                   else if Py.eqb fmt (Py.codes "HEX")
                        then Ok (if p
                                 then "0x" ++ Py.format_08X
                                        (unsigned_of (int32_to_bin32 (fst (saturate_int32 v))))
                                 else Py.format_08X
                                        (unsigned_of (int32_to_bin32 (fst (saturate_int32 v)))))
                        else Raise (Unknown_format_selector fmt)) = Ok out ->
             convert I (Some (Py.codes (Py.repr (fst (saturate_int32 v))))) fmt p
             = Ok (mkResult out 0 0 (fst (saturate_int32 v))
                     (fst (saturate_int32 v))
                     (int32_to_bin32 (fst (saturate_int32 v)))
                     (if p
                      then "0x" ++ Py.format_08X
                             (unsigned_of (int32_to_bin32 (fst (saturate_int32 v))))
                      else Py.format_08X
                             (unsigned_of (int32_to_bin32 (fst (saturate_int32 v))))))).
  { intros out Hout.
    rewrite (convert_parsed I _ _ fmt p Hparse). cbv zeta.
    rewrite (saturate_fixed _ Hc). cbn [fst snd].
    rewrite (detect_overflow_in_range _ Hc). rewrite Hout. reflexivity. }
  destruct (Py.eqb fmt (Py.codes "DEC")) eqn:Hd;
    [|destruct (Py.eqb fmt (Py.codes "BIN")) eqn:Hb;
      [|destruct (Py.eqb fmt (Py.codes "HEX")) eqn:Hh]];
    cbn [bind] in H; try discriminate;
    injection H as <-; cbn [value_out x_sat bin32 hex8];
    (split; [exact Hstr | apply Hgoal; reflexivity]).
Qed.

Lemma convert_idempotent_witness :
  convert sample_interp (Some (Py.codes (Py.repr 2147483647)))
    (Py.codes "DEC") false
  = Ok (mkResult "2147483647" 0 0 2147483647 2147483647
          "01111111111111111111111111111111" "7FFFFFFF").
Proof.
  apply (proj2 (convert_idempotent sample_interp
                  (Some (Py.codes "4000000000")) (Py.codes "DEC") false
                  (mkResult "2147483647" 1 1 4000000000 2147483647
                     "01111111111111111111111111111111" "7FFFFFFF")
                  ltac:(vm_compute; reflexivity))).
Defined.

End PipelineMore.

(** ** More on the encoder, the decoder and the renderer *)
Section CodecMore.

(** The encoder on the whole interval on which it prints 32 bits. *)
Lemma encoder_spec_wide (v : Z) :
  - 2 ^ 32 <= v < 2 ^ 32 ->
  BitPattern32 (int32_to_bin32 v)
  /\ unsigned_of (int32_to_bin32 v) = (if v >=? 0 then v else v + 2 ^ 32).
Proof.
  intros Hv.
  unfold int32_to_bin32, Py.format_032b, BitPattern32, unsigned_of, MOD32.
  set (u := if v >=? 0 then v else 2 ^ 32 + v).
  assert (Hu : 0 <= u < 2 ^ Z.of_nat 32).
  { subst u. rewrite Z.geb_leb. change (Z.of_nat 32) with 32.
    destruct (Z.leb_spec 0 v); lia. }
  destruct (format_zero_padded_spec 2 ltac:(lia) is_bit 32 u
              ltac:(lia) Hu digit_char_bit) as (Hl & Hb & Hval).
  repeat split; [exact Hl | exact Hb |].
  rewrite Hval. subst u. destruct (v >=? 0); lia.
Qed.

Lemma guard_rejects (b : string) (p : bool) :
  ~ BitPattern32 b ->
  bin32_to_int32 b = Raise Bin32_must_be_32_characters_of_0_1
  /\ bin32_to_hex8 b p = Raise Bin32_must_be_32_characters_of_0_1.
Proof.
  intros Hn. unfold bin32_to_int32, bin32_to_hex8.
  destruct (not_bin32 b) eqn:Hg; [split; reflexivity|].
  apply not_bin32_false in Hg. contradiction.
Qed.

Lemma encoder_not_pattern (v : Z) :
  v < - 2 ^ 32 \/ 2 ^ 32 <= v -> ~ BitPattern32 (int32_to_bin32 v).
Proof.
  intros Hv [Hl Hb]. revert Hl Hb.
  unfold int32_to_bin32, Py.format_032b, Py.format_zero_padded, MOD32.
  set (u := if v >=? 0 then v else 2 ^ 32 + v).
  assert (Hu : u < 0 \/ 2 ^ 32 <= u).
  { subst u. rewrite Z.geb_leb. destruct (Z.leb_spec 0 v); lia. }
  unfold Py.sign_of. destruct (Z.ltb_spec u 0) as [Hneg|Hpos].
  - intros _ Hb. cbn [append all_chars] in Hb.
    change (is_bit "-") with false in Hb. discriminate.
  - cbn [append String.length]. rewrite Z.abs_eq by lia.
    intros Hl Hb.
    pose proof (positional_bounds 2 ltac:(lia) is_bit is_bit_digit _ Hb) as B.
    rewrite Hl in B. change (Z.of_nat 32) with 32 in B.
    rewrite positional_append, positional_replicate_zero in B.
    rewrite (digits_value 2 ltac:(lia)) in B by lia. lia.
Qed.

(** X9. The encoder is not guarded.  It prints a 32-character bit
    pattern exactly when [-2^32 <= v < 2^32]; between 2^31 and 2^32 the
    pattern decodes to [v - 2^32] and between -2^32 and -2^31 to
    [v + 2^32] (wrap-around when the caller has not saturated), and
    outside [-2^32, 2^32) the decoder rejects what the encoder prints. *)
Theorem encoder_unguarded (v : Z) :
  (BitPattern32 (int32_to_bin32 v) <-> - 2 ^ 32 <= v < 2 ^ 32)
  /\ (2 ^ 31 <= v < 2 ^ 32 ->
      bin32_to_int32 (int32_to_bin32 v) = Ok (v - 2 ^ 32))
  /\ (- 2 ^ 32 <= v < - 2 ^ 31 ->
      bin32_to_int32 (int32_to_bin32 v) = Ok (v + 2 ^ 32))
  /\ (v < - 2 ^ 32 \/ 2 ^ 32 <= v ->
      bin32_to_int32 (int32_to_bin32 v)
      = Raise Bin32_must_be_32_characters_of_0_1).
Proof.
  split; [split|split; [|split]].
  - intros Hb. destruct (Z.lt_ge_cases v (- 2 ^ 32)) as [Hlo|Hlo].
    + exfalso. apply (encoder_not_pattern v); [now left | exact Hb].
    + destruct (Z.lt_ge_cases v (2 ^ 32)) as [Hhi|Hhi]; [lia|].
      exfalso. apply (encoder_not_pattern v); [now right | exact Hb].
  - intros Hv. now apply encoder_spec_wide.
  - intros Hv. destruct (encoder_spec_wide v ltac:(lia)) as [Hb Hu].
    rewrite (decoder_spec _ Hb), Hu, Z.geb_leb.
    destruct (Z.leb_spec 0 v); [|lia].
    destruct (Z.ltb_spec v (2 ^ 31)); [lia | reflexivity].
  - intros Hv. destruct (encoder_spec_wide v ltac:(lia)) as [Hb Hu].
    rewrite (decoder_spec _ Hb), Hu, Z.geb_leb.
    destruct (Z.leb_spec 0 v); [lia|].
    destruct (Z.ltb_spec (v + 2 ^ 32) (2 ^ 31)); [reflexivity | lia].
  - intros Hv. apply (guard_rejects _ false), encoder_not_pattern, Hv.
Qed.

Lemma encoder_unguarded_witness :
  bin32_to_int32 (int32_to_bin32 (2 ^ 31)) = Ok (- 2 ^ 31)
  /\ bin32_to_int32 (int32_to_bin32 (2 ^ 32))
     = Raise Bin32_must_be_32_characters_of_0_1.
Proof.
  split.
  - apply (proj1 (proj2 (encoder_unguarded (2 ^ 31)))). lia.
  - apply (proj2 (proj2 (proj2 (encoder_unguarded (2 ^ 32))))). right. lia.
Defined.

(** X10. The decoder and the renderer share one guard: on a string of
    exactly 32 characters '0'/'1' both return, and on any other string
    (another length, or any other character anywhere) both raise the
    same error, whatever the prefix option. *)
Theorem decode_render_same_guard (b : string) (p : bool) :
  (String.length b = 32%nat /\ all_chars is_bit b = true
   /\ (exists v, bin32_to_int32 b = Ok v)
   /\ (exists h, bin32_to_hex8 b p = Ok h))
  \/ ((String.length b <> 32%nat \/ all_chars is_bit b = false)
      /\ bin32_to_int32 b = Raise Bin32_must_be_32_characters_of_0_1
      /\ bin32_to_hex8 b p = Raise Bin32_must_be_32_characters_of_0_1).
Proof.
  destruct (Nat.eq_dec (String.length b) 32) as [Hl|Hl].
  - destruct (all_chars is_bit b) eqn:Hb.
    + left. split; [exact Hl|]. split; [reflexivity|]. split.
      * eexists. apply (decoder_spec b (conj Hl Hb)).
      * eexists. apply (renderer_spec b p (conj Hl Hb)).
    + right. split; [now right|]. apply guard_rejects.
      intros [_ H]. congruence.
  - right. split; [now left|]. apply guard_rejects.
    intros [H _]. contradiction.
Qed.

(** X11. The sign of a decoded value is the first character of the
    pattern: on a 32-character bit pattern the decoder returns a
    negative value exactly when the pattern starts with '1'; and the
    encoder prints a leading '1' exactly for the negative values of
    [-2^31, 2^31-1]. *)
Theorem sign_bit_is_sign (b : string) (v : Z) :
  BitPattern32 b -> bin32_to_int32 b = Ok v ->
  (v < 0 <-> String.get 0 b = Some "1"%char)
  /\ (0 <= v <-> String.get 0 b = Some "0"%char)
  /\ (String.get 0 (int32_to_bin32 v) = String.get 0 b).
Proof.
  intros Hb Hdec.
  pose proof (unsigned_of_bounds b Hb) as Bu.
  destruct (sign_bit b Hb) as (c & Hget & Hc).
  assert (Hbit : is_bit c = true).
  { destruct Hb as [_ Hb]. destruct b as [|d r]; [discriminate|].
    injection Hget as ->. simpl in Hb. now apply andb_true_iff in Hb. }
  destruct (encode_decode b Hb) as (w & Hw & Henc).
  assert (w = v) by congruence. subst w.
  rewrite (decoder_spec b Hb) in Hdec. rewrite Henc, Hget.
  destruct (Z.ltb_spec (unsigned_of b) (2 ^ 31)) as [Hlt|Hge];
    injection Hdec as <-.
  - apply Hc, Ascii.eqb_eq in Hlt. subst c.
    repeat split; intros; try lia; try discriminate; reflexivity.
  - destruct (is_bit_cases c Hbit) as [->| ->].
    + assert (unsigned_of b < 2 ^ 31) by now apply Hc. lia.
    + repeat split; intros; try lia; try discriminate; reflexivity.
Qed.

Lemma sign_bit_is_sign_witness :
  (-5 < 0 <-> String.get 0 "11111111111111111111111111111011" = Some "1"%char).
Proof.
  apply (sign_bit_is_sign "11111111111111111111111111111011" (-5)).
  - split; reflexivity.
  - vm_compute. reflexivity.
Defined.

End CodecMore.

(** ** Complement and hexadecimal digits *)
Section BitsMore.

Lemma length_map_chars (f : ascii -> ascii) (s : string) :
  String.length (map_chars f s) = String.length s.
Proof. induction s as [|c s IH]; simpl; [reflexivity | now rewrite IH]. Qed.

Lemma flip_bit_spec (c : ascii) :
  is_bit c = true ->
  is_bit (flip_bit c) = true /\ char_digit (flip_bit c) = 1 - char_digit c.
Proof.
  intros H. destruct (is_bit_cases c H) as [->| ->]; split; reflexivity.
Qed.

Lemma all_bits_flip (s : string) :
  all_chars is_bit s = true -> all_chars is_bit (map_chars flip_bit s) = true.
Proof.
  induction s as [|c s IH]; simpl; [reflexivity|].
  intros H. apply andb_true_iff in H as [Hc Hs].
  rewrite (proj1 (flip_bit_spec c Hc)). now apply IH.
Qed.

Lemma positional_flip (s : string) :
  all_chars is_bit s = true ->
  positional 2 (map_chars flip_bit s) 0
  = 2 ^ Z.of_nat (String.length s) - 1 - positional 2 s 0.
Proof.
  induction s as [|c s IH]; [reflexivity|].
  cbn [all_chars map_chars positional String.length].
  intros H. apply andb_true_iff in H as [Hc Hs].
  rewrite (positional_acc 2 (map_chars flip_bit s)).
  rewrite (positional_acc 2 s).
  rewrite length_map_chars, (IH Hs).
  rewrite (proj2 (flip_bit_spec c Hc)).
  rewrite Nat2Z.inj_succ, Z.pow_succ_r by lia. ring.
Qed.

(** X12. Two's complement: for [v] in [-2^31, 2^31-1], the pattern of
    [-v - 1] is the pattern of [v] with every bit flipped. *)
Theorem encoder_complement (v : Z) :
  - 2 ^ 31 <= v <= 2 ^ 31 - 1 ->
  int32_to_bin32 (- v - 1) = map_chars flip_bit (int32_to_bin32 v).
Proof.
  intros Hv.
  destruct (encoder_spec v (proj2 (in_int32_bounds v) Hv)) as [[Hl Hb] Hu].
  destruct (encoder_spec (- v - 1)
              (proj2 (in_int32_bounds (- v - 1)) ltac:(lia)))
    as [[Hl' Hb'] Hu'].
  apply (positional_inj 2 ltac:(lia) is_bit is_bit_digit is_bit_inj).
  - now rewrite length_map_chars, Hl, Hl'.
  - exact Hb'.
  - now apply all_bits_flip.
  - rewrite (positional_flip _ Hb), Hl.
    fold (unsigned_of (int32_to_bin32 (- v - 1))).
    fold (unsigned_of (int32_to_bin32 v)). rewrite Hu, Hu', !Z.geb_leb.
    change (Z.of_nat 32) with 32.
    destruct (Z.leb_spec 0 v); destruct (Z.leb_spec 0 (- v - 1)); lia.
Qed.

Lemma encoder_complement_witness :
  int32_to_bin32 (- 5 - 1) = map_chars flip_bit (int32_to_bin32 5).
Proof. apply (encoder_complement 5). lia. Defined.

Lemma is_hex_upper_digit_ord (c : ascii) :
  is_hex_upper_digit c = true
  <-> 48 <= Py.ord c <= 57 \/ 65 <= Py.ord c <= 70.
Proof.
  unfold is_hex_upper_digit.
  rewrite orb_true_iff, is_decimal_digit_ord, andb_true_iff, !Z.leb_le.
  tauto.
Qed.

Lemma is_hex_upper_digit_value (c : ascii) :
  is_hex_upper_digit c = true -> Py.digit_value c = Some (char_digit c).
Proof.
  intros H. destruct (is_decimal_digit c) eqn:Hd.
  - now apply is_decimal_digit_value.
  - apply is_hex_upper_digit_ord in H.
    assert (Hn : ~ 48 <= Py.ord c <= 57).
    { intros Hr. apply is_decimal_digit_ord in Hr. congruence. }
    unfold Py.digit_value, char_digit. cbv zeta.
    repeat match goal with
           | |- context [?a <=? ?b] => destruct (Z.leb_spec a b)
           | |- context [?a <? ?b] => destruct (Z.ltb_spec a b)
           end; cbn [andb]; try reflexivity; lia.
Qed.

Lemma is_hex_upper_digit_inj (c d : ascii) :
  is_hex_upper_digit c = true -> is_hex_upper_digit d = true ->
  char_digit c = char_digit d -> c = d.
Proof.
  rewrite !is_hex_upper_digit_ord. intros Hc Hd. unfold char_digit.
  destruct (Z.ltb_spec (Py.ord c) 58); destruct (Z.ltb_spec (Py.ord d) 58);
    intros Heq; apply ord_inj; lia.
Qed.

Lemma int_hex (h : string) :
  h <> EmptyString -> all_chars is_hex_upper_digit h = true ->
  Py.int h 16 = Some (positional 16 h 0).
Proof.
  intros Hne Hh. destruct h as [|c r]; [contradiction|].
  assert (Hc : is_hex_upper_digit c = true)
    by (simpl in Hh; now apply andb_true_iff in Hh).
  apply is_hex_upper_digit_ord in Hc.
  unfold Py.int. rewrite !eqb_ord.
  change (Py.ord "+") with 43. change (Py.ord "-") with 45.
  destruct (Z.eqb_spec (Py.ord c) 43); [lia|].
  destruct (Z.eqb_spec (Py.ord c) 45); [lia|].
  apply (int_digits_positional 16 is_hex_upper_digit
           is_hex_upper_digit_digit is_hex_upper_digit_value).
  exact Hh.
Qed.

(** X13. Hexadecimal round trip: for a 32-character bit pattern [b],
    the rendering without prefix is 8 characters that [int(h, 16)] reads
    back as the unsigned number of [b]; printing that number with
    [format(u, "032b")] gives [b] again; the rendering with prefix is
    "0x" followed by the same 8 characters. *)
Theorem hex_roundtrip (b : string) :
  BitPattern32 b ->
  exists h : string,
    bin32_to_hex8 b false = Ok h
    /\ bin32_to_hex8 b true = Ok (String "0" (String "x" h))
    /\ String.length h = 8%nat
    /\ Py.int h 16 = Some (unsigned_of b)
    /\ Py.format_032b (unsigned_of b) = b.
Proof.
  intros Hb. pose proof (unsigned_of_bounds b Hb) as Bu.
  destruct (format_08X_spec _ Bu) as (Hl & Hx & Hval).
  exists (Py.format_08X (unsigned_of b)).
  split; [apply (renderer_spec b false Hb)|].
  split; [apply (renderer_spec b true Hb)|].
  split; [exact Hl|]. split.
  - rewrite int_hex; [now rewrite Hval | | exact Hx].
    intros He. rewrite He in Hl. discriminate.
  - destruct (format_zero_padded_spec 2 ltac:(lia) is_bit 32 (unsigned_of b)
                ltac:(lia) Bu digit_char_bit) as (Hl2 & Hb2 & Hv2).
    destruct Hb as [Hlb Hbb].
    apply (positional_inj 2 ltac:(lia) is_bit is_bit_digit is_bit_inj);
      [unfold Py.format_032b; congruence | exact Hb2 | exact Hbb | exact Hv2].
Qed.

Lemma hex_roundtrip_witness :
  exists h : string,
    bin32_to_hex8 "10000000000000000000000000000000" false = Ok h
    /\ Py.int h 16 = Some (unsigned_of "10000000000000000000000000000000").
Proof.
  destruct (hex_roundtrip "10000000000000000000000000000000"
              (conj eq_refl eq_refl)) as (h & H1 & _ & _ & H2 & _).
  exists h. split; [exact H1 | exact H2].
Defined.

Lemma nibbles_spec (n : nat) (s : string) (acc : Z) :
  all_chars is_bit s = true -> String.length s = (4 * n)%nat ->
  String.length (nibbles n s) = n
  /\ all_chars is_hex_upper_digit (nibbles n s) = true
  /\ positional 16 (nibbles n s) acc = positional 2 s acc.
Proof.
  revert s acc. induction n as [|n IH]; intros s acc Hs Hl.
  - destruct s; [repeat split | discriminate].
  - destruct s as [|a [|b [|c [|d r]]]]; try (simpl in Hl; lia).
    cbn [all_chars] in Hs.
    apply andb_true_iff in Hs as [Ha Hs]. apply andb_true_iff in Hs as [Hb Hs].
    apply andb_true_iff in Hs as [Hc Hs]. apply andb_true_iff in Hs as [Hd Hr].
    assert (Hlr : String.length r = (4 * n)%nat) by (simpl in Hl; lia).
    cbn [nibbles].
    set (q := String a (String b (String c (String d EmptyString)))).
    assert (Hq : all_chars is_bit q = true)
      by (subst q; cbn [all_chars]; now rewrite Ha, Hb, Hc, Hd).
    pose proof (positional_bounds 2 ltac:(lia) is_bit is_bit_digit q Hq) as Bq.
    change (Z.of_nat (String.length q)) with 4 in Bq.
    change (2 ^ 4) with 16 in Bq.
    destruct (IH r (acc * 16 + positional 2 q 0) Hr Hlr) as (IH1 & IH2 & IH3).
    cbn [String.length all_chars positional].
    rewrite IH1, IH2, (digit_char_hex _ Bq).
    rewrite char_digit_digit_char by lia. rewrite IH3.
    repeat split.
    f_equal. subst q. cbn [positional]. ring.
Qed.

(** X14. Each hexadecimal digit renders four bits: for a 32-character
    bit pattern [b], the rendering without prefix is the string of the 8
    digits obtained by reading [b] four bits at a time. *)
Theorem hex_digit_per_nibble (b : string) :
  BitPattern32 b -> bin32_to_hex8 b false = Ok (nibbles 8 b).
Proof.
  intros Hb. rewrite (renderer_spec b false Hb). f_equal.
  pose proof (unsigned_of_bounds b Hb) as Bu.
  destruct (format_08X_spec _ Bu) as (Hl & Hx & Hval).
  destruct Hb as [Hlb Hbb].
  destruct (nibbles_spec 8 b 0 Hbb Hlb) as (Nl & Nx & Nv).
  apply (positional_inj 16 ltac:(lia) is_hex_upper_digit
           is_hex_upper_digit_digit is_hex_upper_digit_inj);
    [congruence | exact Hx | exact Nx |].
  rewrite Hval, Nv. reflexivity.
Qed.

Lemma hex_digit_per_nibble_witness :
  bin32_to_hex8 "11111111111111111111111110000101" false
  = Ok (nibbles 8 "11111111111111111111111110000101").
Proof.
  apply (hex_digit_per_nibble "11111111111111111111111110000101").
  split; reflexivity.
Defined.

End BitsMore.

(** ** The command-line entry point *)
Section Main.

Lemma ascii_upper_ascii (c : Z) :
  Py.is_ascii (ascii_upper c) = true -> Py.is_ascii c = true.
Proof.
  unfold Py.is_ascii, ascii_upper.
  destruct ((97 <=? c) && (c <=? 122)) eqn:E; [|auto].
  apply andb_true_iff in E as [E1 E2]. apply Z.leb_le in E1, E2.
  intros _. apply andb_true_iff. rewrite Z.leb_le, Z.ltb_lt. lia.
Qed.

Lemma map_ascii_upper_ascii (t l : Py.text) :
  map ascii_upper t = l -> forallb Py.is_ascii l = true ->
  forallb Py.is_ascii t = true.
Proof.
  intros <-. induction t as [|c t IH]; simpl; [reflexivity|].
  rewrite !andb_true_iff. intros [Hc Ht].
  split; [now apply ascii_upper_ascii | now apply IH].
Qed.

(** On ASCII text every interpreter upper-cases the letters 'a'..'z'
    and nothing else. *)
Lemma upper_ascii (I : Py.Interp) (t : Py.text) :
  forallb Py.is_ascii t = true -> Py.upper I t = map ascii_upper t.
Proof.
  unfold Py.upper. induction t as [|c t IH]; simpl; [reflexivity|].
  rewrite andb_true_iff. intros [Hc Ht].
  unfold Py.upper_char at 1. rewrite Hc. cbn [app].
  unfold ascii_upper at 1. now rewrite (IH Ht).
Qed.

Lemma in_formats_cases (l : Py.text) :
  in_formats l = true
  <-> l = Py.codes "DEC" \/ l = Py.codes "BIN" \/ l = Py.codes "HEX".
Proof.
  unfold in_formats. cbn [existsb]. rewrite !orb_true_iff, !eqb_eq.
  split; [intros [H|[H|[H|H]]]; auto; discriminate | tauto].
Qed.

(** Every run of [main] that gets past the gate. *)
Lemma main_past_gate (I : Py.Interp) (args : Namespace) (w : Py.text) :
  Py.upper I (Py.strip (arg_fmt args)) = w ->
  w = Py.codes "DEC" \/ w = Py.codes "BIN" \/ w = Py.codes "HEX" ->
  (forall e, parse_decimal_signed I (Some (arg_x args)) = Raise e ->
             main I args = ([], Uncaught e))
  /\ (forall v, parse_decimal_signed I (Some (arg_x args)) = Ok v ->
        exists r,
          convert I (Some (arg_x args)) w (arg_hex_prefix args) = Ok r
          /\ main I args
             = ([value_out r;
                 "overflow="
                 ++ (if (v <? - 2 ^ 31) || (v >? 2 ^ 31 - 1) then "1" else "0");
                 "saturated="
                 ++ (if (v <? - 2 ^ 31) || (v >? 2 ^ 31 - 1) then "1" else "0")],
                Returned)).
Proof.
  intros Hup Hw.
  assert (Hin : in_formats w = true) by now apply in_formats_cases.
  unfold main. cbv zeta. rewrite Hup, Hin. cbn [negb]. split.
  - intros e He. now rewrite (convert_unparsed I _ e w _ He).
  - intros v Hv.
    destruct (convert_valid I _ v w (arg_hex_prefix args) Hv Hw) as [r Hr].
    exists r. split; [exact Hr|]. rewrite Hr.
    destruct (convert_ok I _ _ _ r Hr) as (Hp & Ho & Hs & _).
    assert (x_input r = v) by congruence. subst v.
    assert (Hflag : snd (saturate_int32 (x_input r))
                    = detect_overflow (x_input r)).
    { pose proof (saturate_cases (x_input r)) as Cs.
      pose proof (detect_overflow_cases (x_input r)) as Co.
      unfold in_int32 in *.
      destruct Cs as [[Hv1 ->]|[[Hv1 ->]|[Hv1 ->]]];
        destruct Co as [[Hr1 ->]|[Hr1 ->]]; cbn [snd]; try reflexivity; lia. }
    rewrite Hs, Hflag, Ho. unfold detect_overflow, MIN_INT32, MAX_INT32.
    destruct ((x_input r <? - 2 ^ 31) || (x_input r >? 2 ^ 31 - 1));
      reflexivity.
Qed.

(** X15. The gate of [main]: when the selector, trimmed and
    upper-cased, is not DEC, BIN or HEX, the run ends with SystemExit
    and prints nothing, whatever the number text is (even text that does
    not parse); for a selector of ASCII characters that is the case
    exactly when it is not DEC, BIN or HEX up to the case of the letters
    'a'..'z'; and no run of [main] ever ends with the unknown-selector
    or the malformed-pattern error of [convert]. *)
Theorem main_selector_gate (I : Py.Interp) (args : Namespace) :
  (in_formats (Py.upper I (Py.strip (arg_fmt args))) = false ->
   main I args = ([], SystemExit "Format must be one of: DEC, BIN, HEX"))
  /\ (forallb Py.is_ascii (Py.strip (arg_fmt args)) = true ->
      (in_formats (Py.upper I (Py.strip (arg_fmt args))) = false
       <-> map ascii_upper (Py.strip (arg_fmt args)) <> Py.codes "DEC"
           /\ map ascii_upper (Py.strip (arg_fmt args)) <> Py.codes "BIN"
           /\ map ascii_upper (Py.strip (arg_fmt args)) <> Py.codes "HEX"))
  /\ (forall f, snd (main I args) <> Uncaught (Unknown_format_selector f))
  /\ snd (main I args) <> Uncaught Bin32_must_be_32_characters_of_0_1.
Proof.
  split; [|split].
  - intros Hin. unfold main. cbv zeta. now rewrite Hin.
  - intros Ha. rewrite (upper_ascii I _ Ha).
    destruct (in_formats (map ascii_upper (Py.strip (arg_fmt args)))) eqn:Hin.
    + apply in_formats_cases in Hin. split; [discriminate|]. tauto.
    + split; [intros _|reflexivity].
      repeat split; intros H;
        assert (Ht : in_formats (map ascii_upper (Py.strip (arg_fmt args)))
                     = true)
          by (apply in_formats_cases; tauto); congruence.
  - destruct (in_formats (Py.upper I (Py.strip (arg_fmt args)))) eqn:Hin.
    + apply in_formats_cases in Hin.
      destruct (main_past_gate I args _ eq_refl Hin) as [Hraise Hok].
      destruct (parse_decimal_signed I (Some (arg_x args))) as [v|e] eqn:Hp.
      * destruct (Hok v eq_refl) as (r & _ & ->). cbn [snd].
        split; [intros f|]; discriminate.
      * rewrite (Hraise e eq_refl). cbn [snd].
        destruct (parse_raise_kind I _ e Hp) as [Hk| ->];
          (split; [intros f|]); intros H; injection H as H;
          subst; discriminate.
    + unfold main. cbv zeta. rewrite Hin. cbn [negb snd].
      split; [intros f|]; discriminate.
Qed.

Lemma main_selector_gate_witness :
  main sample_interp (mkNamespace (Py.codes "12a") (Py.codes "octal") false)
  = ([], SystemExit "Format must be one of: DEC, BIN, HEX").
Proof.
  apply (proj1 (main_selector_gate sample_interp
                  (mkNamespace (Py.codes "12a") (Py.codes "octal") false))).
  vm_compute. reflexivity.
Defined.

(** Beyond ASCII the upper case comes from the interpreter's database:
    with U+0131 upper-casing to 'I', the selector "b", U+0131, "n" is
    let through as BIN. *)
Example main_accepts_dotless_i :
  main sample_interp (mkNamespace (Py.codes "5") [98; 305; 110] false)
  = (["00000000000000000000000000000101"; "overflow=0"; "saturated=0"],
     Returned).
Proof. vm_compute. reflexivity. Qed.

(** X16. What [main] prints: when the selector, trimmed, is [w] = DEC,
    BIN or HEX up to the case of the letters 'a'..'z', a number text
    that does not parse ends the run with the parser's error and nothing
    printed; a text that parses to [v] prints exactly three lines, the
    [value_out] of [convert] under [w], then "overflow=" and
    "saturated=" each followed by the same digit, "1" when [v] is outside
    [-2^31, 2^31-1] and "0" otherwise. *)
Theorem main_prints (I : Py.Interp) (args : Namespace) (w : string) :
  map ascii_upper (Py.strip (arg_fmt args)) = Py.codes w ->
  w = "DEC" \/ w = "BIN" \/ w = "HEX" ->
  (forall e, parse_decimal_signed I (Some (arg_x args)) = Raise e ->
             main I args = ([], Uncaught e)
             /\ (kind_of e = Some InvalidFormat
                 \/ e = Exceeds_the_limit_for_integer_string_conversion))
  /\ (forall v, parse_decimal_signed I (Some (arg_x args)) = Ok v ->
        exists r,
          convert I (Some (arg_x args)) (Py.codes w) (arg_hex_prefix args)
          = Ok r
          /\ main I args
             = ([value_out r;
                 "overflow="
                 ++ (if (v <? - 2 ^ 31) || (v >? 2 ^ 31 - 1) then "1" else "0");
                 "saturated="
                 ++ (if (v <? - 2 ^ 31) || (v >? 2 ^ 31 - 1) then "1" else "0")],
                Returned)).
Proof.
  intros Hsel Hw.
  assert (Hcodes : Py.codes w = Py.codes "DEC" \/ Py.codes w = Py.codes "BIN"
                   \/ Py.codes w = Py.codes "HEX")
    by (destruct Hw as [->|[->| ->]]; auto).
  assert (Ha : forallb Py.is_ascii (Py.strip (arg_fmt args)) = true).
  { apply (map_ascii_upper_ascii _ _ Hsel).
    destruct Hw as [->|[->| ->]]; reflexivity. }
  assert (Hup : Py.upper I (Py.strip (arg_fmt args)) = Py.codes w)
    by (now rewrite (upper_ascii I _ Ha)).
  destruct (main_past_gate I args (Py.codes w) Hup Hcodes) as [Hraise Hok].
  split; [|exact Hok].
  intros e He. split; [now apply Hraise | now apply (parse_raise_kind I _ e He)].
Qed.

Lemma main_prints_witness :
  exists r,
    convert sample_interp (Some (Py.codes "4000000000")) (Py.codes "HEX") true
    = Ok r
    /\ main sample_interp
         (mkNamespace (Py.codes "4000000000") (Py.codes " hex ") true)
       = ([value_out r; "overflow=1"; "saturated=1"], Returned).
Proof.
  destruct (proj2 (main_prints sample_interp
                     (mkNamespace (Py.codes "4000000000") (Py.codes " hex ")
                        true) "HEX"
                     ltac:(vm_compute; reflexivity)
                     ltac:(right; right; reflexivity))
              4000000000 ltac:(vm_compute; reflexivity)) as (r & Hr & Hm).
  exists r. split; [exact Hr | exact Hm].
Defined.

End Main.
